(** * jMetalPy: NSGA-II replacement, the distributed steady-state NSGA-II
      scheduler and the DTLZ1 benchmark problem

    Sources embedded here:
    - [jmetal/algorithm/multiobjective/nsgaii.py]  ([NSGAII], [DistributedNSGAII])
    - [jmetal/core/problem.py]                     ([Problem] interface)
    - [jmetalpy/problem/multiobjective/dtlz.py]    ([DTLZ1])

    Python [int]s that are sizes or counters are [nat]; Python [float]s
    that the source computes with are binary64 primitive floats; objective
    and constraint values of the ranking machinery, which the specification
    describes as real values, are rationals. *)

From Stdlib Require Import List Arith Lia ZArith QArith Lqa Bool Permutation Floats.
Import ListNotations.
Local Open Scope nat_scope.

(* ================================================================== *)
(** * Part I. Definitions                                              *)
(* ================================================================== *)

(** ** Solutions and the ranking machinery *)

Module Core.

(** Crowding distances live in the reals extended with +infinity. *)
Inductive distance : Type :=
| Finite (d : Q)
| Infinity.

(** Modelled from the spec: the [Solution] class ([jmetal.core.solution]
    is not among the sources).  Section 3: ordered decision, objective and
    constraint vectors, and an attribute map of which only [rank] and
    [crowding_distance] are load-bearing (section 9), kept here as two
    optional fields. *)
Record Solution : Type := mkSolution {
  variables : list Q;
  objectives : list Q;
  constraints : list Q;
  rank : option nat;
  crowding_distance : option distance
}.

Definition set_rank (k : nat) (s : Solution) : Solution :=
  mkSolution (variables s) (objectives s) (constraints s) (Some k) (crowding_distance s).

Definition set_crowding_distance (d : distance) (s : Solution) : Solution :=
  mkSolution (variables s) (objectives s) (constraints s) (rank s) (Some d).

Definition Qltb (x y : Q) : bool :=
  match (x ?= y)%Q with Lt => true | _ => false end.

(** Total constraint violation: [constraints[i] < 0] denotes a violation
    of magnitude [- constraints[i]]; satisfied constraints contribute 0. *)
Fixpoint violation_of (cs : list Q) : Q :=
  match cs with
  | [] => 0%Q
  | c :: cs' => if Qltb c 0 then (violation_of cs' - c)%Q else violation_of cs'
  end.

Definition violation (s : Solution) : Q := violation_of (constraints s).

(** [a] is no worse than [b] in every (paired) objective. *)
Fixpoint no_worse (a b : list Q) : bool :=
  match a, b with
  | x :: a', y :: b' => Qle_bool x y && no_worse a' b'
  | _, _ => true
  end.

(** [a] is strictly better than [b] in at least one (paired) objective. *)
Fixpoint strictly_better (a b : list Q) : bool :=
  match a, b with
  | x :: a', y :: b' => Qltb x y || strictly_better a' b'
  | _, _ => false
  end.

Definition pareto_dominates (a b : list Q) : bool :=
  no_worse a b && strictly_better a b.

(** Modelled from the spec: [DominanceComparator.compare] (section 4.1;
    [jmetal.component] is not among the sources).  The result is -1 when
    [a] dominates [b], 1 when [b] dominates [a] and 0 otherwise.  If either
    solution violates a constraint, the one with strictly less total
    violation dominates regardless of objectives; otherwise all objectives
    are compared in the minimisation sense. *)
Definition compare (a b : Solution) : Z :=
  let va := violation a in
  let vb := violation b in
  if Qltb 0 va || Qltb 0 vb then
    if Qltb va vb then (-1)%Z
    else if Qltb vb va then 1%Z
    else 0%Z
  else if pareto_dominates (objectives a) (objectives b) then (-1)%Z
  else if pareto_dominates (objectives b) (objectives a) then 1%Z
  else 0%Z.

Definition dominates (a b : Solution) : bool := (compare a b =? -1)%Z.

(** A linear order on solutions that extends domination (total violation
    first, then the objectives lexicographically); it is what makes the
    domination relation acyclic. *)
Fixpoint lex_ltb (a b : list Q) : bool :=
  match a, b with
  | _, [] => false
  | [], _ :: _ => true
  | x :: a', y :: b' =>
      match (x ?= y)%Q with
      | Lt => true
      | Gt => false
      | Eq => lex_ltb a' b'
      end
  end.

Definition key (s : Solution) : list Q := violation s :: objectives s.

Definition key_ltb (a b : Solution) : bool := lex_ltb (key a) (key b).

(** *** Fast non-dominated sort (section 4.2)

    Solutions are addressed by their position in the population. *)

Definition dominates_at (population : list Solution) (p q : nat) : bool :=
  match nth_error population p, nth_error population q with
  | Some a, Some b => dominates a b
  | _, _ => false
  end.

(** Number of solutions dominating [q]. *)
Definition domination_count (population : list Solution) (q : nat) : nat :=
  length (filter (fun p => dominates_at population p q) (seq 0 (length population))).

(** The solutions [p] dominates. *)
Definition dominated_set (population : list Solution) (p : nat) : list nat :=
  filter (fun q => dominates_at population p q) (seq 0 (length population)).

Fixpoint update (l : list nat) (i : nat) (v : nat) : list nat :=
  match l, i with
  | [], _ => []
  | _ :: l', 0 => v :: l'
  | x :: l', S i' => x :: update l' i' v
  end.

(** Decrement the domination count of [q]; on reaching 0, [q] joins the
    next front. *)
Definition decrement (st : list nat * list nat) (q : nat) : list nat * list nat :=
  let c := pred (nth q (fst st) 0) in
  (update (fst st) q c, if c =? 0 then snd st ++ [q] else snd st).

(** For each member of the current front, decrement the count of
    everything it dominates.  Returns the new counts and the next front. *)
Definition next_front (population : list Solution) (front : list nat) (counts : list nat)
  : list nat * list nat :=
  fold_left (fun st p => fold_left decrement (dominated_set population p) st)
            front (counts, []).

Fixpoint fronts_from (population : list Solution) (fuel : nat)
         (front : list nat) (counts : list nat) : list (list nat) :=
  match fuel, front with
  | 0, _ => []
  | _, [] => []
  | S fuel', _ :: _ =>
      let (counts', next) := next_front population front counts in
      front :: fronts_from population fuel' next counts'
  end.

Definition initial_counts (population : list Solution) : list nat :=
  map (domination_count population) (seq 0 (length population)).

Definition first_front (population : list Solution) : list nat :=
  filter (fun q => nth q (initial_counts population) 0 =? 0) (seq 0 (length population)).

(** The fronts as lists of positions; each front is non-empty, so
    [length population] rounds are enough. *)
Definition index_fronts (population : list Solution) : list (list nat) :=
  fronts_from population (length population) (first_front population)
              (initial_counts population).

Fixpoint attach_ranks (population : list Solution) (k : nat) (fronts : list (list nat))
  : list (list Solution) :=
  match fronts with
  | [] => []
  | f :: rest =>
      flat_map (fun i => match nth_error population i with
                         | Some s => [set_rank k s]
                         | None => []
                         end) f
      :: attach_ranks population (S k) rest
  end.

(** Modelled from the spec: [FastNonDominatedSort] (section 4.2): the
    ordered fronts [F1, F2, ...], each solution carrying its 0-indexed
    rank. *)
Definition compute_ranking (population : list Solution) : list (list Solution) :=
  attach_ranks population 0 (index_fronts population).

(** *** Crowding distance (section 4.3) *)

Definition objective_at (k : nat) (s : Solution) : Q := nth k (objectives s) 0%Q.

Definition add_distance (d : distance) (x : Q) : distance :=
  match d with
  | Finite y => Finite (y + x)
  | Infinity => Infinity
  end.

(** [dist[p] := f dist[p]]. *)
Fixpoint modify (f : distance -> distance) (p : nat) (dist : list distance) : list distance :=
  match dist, p with
  | [], _ => []
  | d :: dist', 0 => f d :: dist'
  | d :: dist', S p' => d :: modify f p' dist'
  end.

(** Stable insertion of a (position, value) pair into a list sorted by
    ascending value. *)
Fixpoint insert_by_value (x : nat * Q) (l : list (nat * Q)) : list (nat * Q) :=
  match l with
  | [] => [x]
  | y :: l' => if Qle_bool (snd x) (snd y) then x :: l else y :: insert_by_value x l'
  end.

Definition sort_by_value (l : list (nat * Q)) : list (nat * Q) :=
  fold_right insert_by_value [] l.

(** [(objective[i+1] - objective[i-1]) / (max - min)], and 0 when
    [max == min]. *)
Definition contribution (lo hi prev next : Q) : Q :=
  if Qeq_bool hi lo then 0%Q else ((next - prev) / (hi - lo))%Q.

(** Walk the sorted front; every member that has a successor (and, by the
    caller, a predecessor whose value is [prev]) is interior. *)
Fixpoint add_interior (lo hi prev : Q) (l : list (nat * Q)) (dist : list distance)
  : list distance :=
  match l with
  | (p, v) :: rest =>
      match rest with
      | (_, next) :: _ =>
          add_interior lo hi v rest (modify (fun d => add_distance d (contribution lo hi prev next)) p dist)
      | [] => dist
      end
  | [] => dist
  end.

Definition distances_for_objective (front : list Solution) (k : nat) (dist : list distance)
  : list distance :=
  let order := sort_by_value
                 (combine (seq 0 (length front)) (map (objective_at k) front)) in
  match order with
  | [] => dist
  | (p0, lo) :: rest =>
      let '(pl, hi) := last order (p0, lo) in
      modify (fun _ => Infinity) pl
        (modify (fun _ => Infinity) p0 (add_interior lo hi lo rest dist))
  end.

Definition number_of_objectives_of (front : list Solution) : nat :=
  match front with
  | [] => 0
  | s :: _ => length (objectives s)
  end.

Definition crowding_distances (front : list Solution) : list distance :=
  fold_left (fun dist k => distances_for_objective front k dist)
            (seq 0 (number_of_objectives_of front))
            (map (fun _ => Finite 0) front).

Fixpoint store_distances (front : list Solution) (dist : list distance) : list Solution :=
  match front, dist with
  | s :: front', d :: dist' => set_crowding_distance d s :: store_distances front' dist'
  | s :: front', [] => s :: store_distances front' []
  | [], _ => []
  end.

(** Modelled from the spec: [CrowdingDistance] (section 4.3): the front
    with each solution's crowding distance stored in its attributes. *)
Definition compute_density_estimator (front : list Solution) : list Solution :=
  store_distances front (crowding_distances front).

(** *** Ranking and crowding selection (section 4.4) *)

Definition distance_geb (d1 d2 : distance) : bool :=
  match d1, d2 with
  | Infinity, _ => true
  | Finite _, Infinity => false
  | Finite x, Finite y => Qle_bool y x
  end.

Definition distance_of (s : Solution) : distance :=
  match crowding_distance s with
  | Some d => d
  | None => Finite 0
  end.

(** Stable insertion into a list sorted by descending crowding distance. *)
Fixpoint insert_by_distance (x : Solution) (l : list Solution) : list Solution :=
  match l with
  | [] => [x]
  | y :: l' =>
      if distance_geb (distance_of x) (distance_of y) then x :: l
      else y :: insert_by_distance x l'
  end.

Definition sort_by_distance (l : list Solution) : list Solution :=
  fold_right insert_by_distance [] l.

(** Accumulate whole fronts in rank order while they fit; truncate the
    first front that does not fit by descending crowding distance. *)
Fixpoint accumulate (target : nat) (fronts : list (list Solution)) (result : list Solution)
  : list Solution :=
  match fronts with
  | [] => result
  | f :: rest =>
      if length result + length f <=? target then accumulate target rest (result ++ f)
      else result ++ firstn (target - length result)
                            (sort_by_distance (compute_density_estimator f))
  end.

(** Modelled from the spec: an instance of class [DominanceComparator]
    (section 4.1); the comparison has no parameter, so the class has no
    state. *)
Inductive DominanceComparator : Type := mkDominanceComparator.

(** Modelled from the spec: the constructor arguments of
    [RankingAndCrowdingDistanceSelection], as the sources pass them: the
    target size and, optionally, a dominance comparator. *)
Record RankingAndCrowdingDistanceSelection : Type := mkRankingAndCrowdingDistanceSelection {
  max_population_size : nat;
  dominance_comparator : DominanceComparator
}.

(** Modelled from the spec: [RankingAndCrowdingDistanceSelection.execute]
    (section 4.4, [select(population, targetSize)]; [jmetal.operator] is
    not among the sources). *)
Definition execute (self : RankingAndCrowdingDistanceSelection) (population : list Solution)
  : list Solution :=
  accumulate (max_population_size self) (compute_ranking population) [].

End Core.

(** ** [jmetal.algorithm.multiobjective.nsgaii]: class [NSGAII] *)

Module NSGAII.
Import Core.

(** The attributes of an [NSGAII] instance that the methods below read
    (the other constructor arguments are handed to [GeneticAlgorithm]). *)
Record t : Type := mk {
  population_size : nat;
  offspring_size : nat;
  mating_pool_size : nat;
  dominance_comparator : DominanceComparator;
  population : list Solution
}.

Definition replacement (self : t) (population offspring_population : list Solution)
  : list Solution :=
  let join_population := population ++ offspring_population in
  execute (mkRankingAndCrowdingDistanceSelection (population_size self)
                                                 (dominance_comparator self))
          join_population.

Definition get_result (self : t) : list Solution := population self.

End NSGAII.

(** ** [jmetal.algorithm.multiobjective.nsgaii]: class [DistributedNSGAII] *)

Module DistributedNSGAII.
Import Core.

Section Model.

(** The state of everything outside the coordinator: random number
    generator, wall clock, the workers of the execution service. *)
Variable World : Type.

(** [time.time()]: reading the wall clock. *)
Variable time_time : World -> float * World.

(** [Problem] ([jmetal/core/problem.py]): [create_solution() -> S],
    [evaluate(solution: S) -> S] and the attribute [reference_front].
    [create_solution] draws random numbers; [evaluate] runs on a worker, on
    a copy of the submitted solution, and its return value is the future's
    result. *)
Record Problem : Type := mkProblem {
  create_solution : World -> Solution * World;
  evaluate : Solution -> Solution;
  reference_front : option (list Solution)
}.

(** Modelled from the spec: the operator interfaces [Selection],
    [Crossover] and [Mutation] ([jmetal.core.operator] is not among the
    sources).  Section 6: selection maps a population to one solution,
    crossover maps the parents to an offspring list, mutation changes one
    solution in place; the offspring are fresh objects, so the mutated
    state of [offspring[0]] is what [mutation_execute] returns.  The
    operators draw random numbers from the world. *)
Record Selection : Type := mkSelection {
  selection_execute : list Solution -> World -> Solution * World
}.

Record Crossover : Type := mkCrossover {
  crossover_execute : list Solution -> World -> list Solution * World
}.

Record Mutation : Type := mkMutation {
  mutation_execute : Solution -> World -> Solution * World
}.

(** A future returned by [client.submit(problem.evaluate, argument)]. *)
Record Future : Type := mkFuture {
  future_id : nat;
  argument : Solution
}.

(** The execution service behind [client] ([dask.distributed], section 6):
    every task submitted so far, every future cancelled so far, and the
    order in which outstanding futures complete ([arrival] picks a position
    in the pool of outstanding futures, read modulo the pool's size).  The
    pool holds the futures submitted and not yet consumed by the
    coordinator, whether still running or completed and waiting. *)
Record Client : Type := mkClient {
  arrival : list Future -> World -> nat * World;
  submitted : list Future;
  cancelled : list Future
}.

(** [observable_data] of [update_progress]. *)
Record Event : Type := mkEvent {
  EVALUATIONS : nat;
  COMPUTING_TIME : float;
  SOLUTIONS : list Solution;
  event_reference_front : option (list Solution)
}.

(** Modelled from the spec: the observable ([jmetal.core.observable] and
    [jmetal.config] are not among the sources).  Section 6: any number of
    registered observers, notified synchronously; [delivered] records, in
    order, which observer received which event. *)
Record Observable : Type := mkObservable {
  observers : list nat;
  delivered : list (nat * Event)
}.

Record t : Type := mk {
  problem : Problem;
  max_evaluations : nat;
  mutation_operator : Mutation;
  crossover_operator : Crossover;
  selection_operator : Selection;
  population : option (list Solution);
  population_size : nat;
  number_of_cores : nat;
  client : Client;
  observable : Observable;
  evaluations : nat;
  start_computing_time : float;
  total_computing_time : float
}.

(** [__init__] *)
Definition init (population_size : nat) (problem : Problem) (max_evaluations : nat)
           (mutation : Mutation) (crossover : Crossover) (selection : Selection)
           (number_of_cores : nat) (client : Client) (default_observable : Observable) : t :=
  mk problem max_evaluations mutation crossover selection
     None population_size number_of_cores client default_observable
     0 0%float 0%float.

Definition set_population (v : option (list Solution)) (self : t) : t :=
  mk (problem self) (max_evaluations self) (mutation_operator self) (crossover_operator self)
     (selection_operator self) v (population_size self) (number_of_cores self)
     (client self) (observable self) (evaluations self)
     (start_computing_time self) (total_computing_time self).

Definition set_client (v : Client) (self : t) : t :=
  mk (problem self) (max_evaluations self) (mutation_operator self) (crossover_operator self)
     (selection_operator self) (population self) (population_size self) (number_of_cores self)
     v (observable self) (evaluations self)
     (start_computing_time self) (total_computing_time self).

Definition set_observable (v : Observable) (self : t) : t :=
  mk (problem self) (max_evaluations self) (mutation_operator self) (crossover_operator self)
     (selection_operator self) (population self) (population_size self) (number_of_cores self)
     (client self) v (evaluations self)
     (start_computing_time self) (total_computing_time self).

Definition set_evaluations (v : nat) (self : t) : t :=
  mk (problem self) (max_evaluations self) (mutation_operator self) (crossover_operator self)
     (selection_operator self) (population self) (population_size self) (number_of_cores self)
     (client self) (observable self) v
     (start_computing_time self) (total_computing_time self).

Definition set_start_computing_time (v : float) (self : t) : t :=
  mk (problem self) (max_evaluations self) (mutation_operator self) (crossover_operator self)
     (selection_operator self) (population self) (population_size self) (number_of_cores self)
     (client self) (observable self) (evaluations self)
     v (total_computing_time self).

Definition set_total_computing_time (v : float) (self : t) : t :=
  mk (problem self) (max_evaluations self) (mutation_operator self) (crossover_operator self)
     (selection_operator self) (population self) (population_size self) (number_of_cores self)
     (client self) (observable self) (evaluations self)
     (start_computing_time self) v.

(** [observable.notify_all], called with the fields of [observable_data]. *)
Definition notify_all (o : Observable) (e : Event) : Observable :=
  mkObservable (observers o) (delivered o ++ map (fun ob => (ob, e)) (observers o)).

Definition update_progress (self : t) (population : list Solution) : t :=
  let observable_data :=
    mkEvent (evaluations self) (total_computing_time self) population
            (reference_front (problem self)) in
  set_observable (notify_all (observable self) observable_data) self.

Fixpoint create_solutions (p : Problem) (n : nat) (w : World) : list Solution * World :=
  match n with
  | 0 => ([], w)
  | S n' =>
      let (s, w1) := create_solution p w in
      let (rest, w2) := create_solutions p n' w1 in
      (s :: rest, w2)
  end.

Definition create_initial_population (self : t) (w : World) : list Solution * World :=
  create_solutions (problem self) (number_of_cores self) w.

(** [client.submit(problem.evaluate, solution)] *)
Definition submit (c : Client) (solution : Solution) : Future * Client :=
  let f := mkFuture (length (submitted c)) solution in
  (f, mkClient (arrival c) (submitted c ++ [f]) (cancelled c)).

Fixpoint submit_all (c : Client) (solutions : list Solution) : list Future * Client :=
  match solutions with
  | [] => ([], c)
  | s :: rest =>
      let (f, c1) := submit c s in
      let (fs, c2) := submit_all c1 rest in
      (f :: fs, c2)
  end.

(** [future.result()] *)
Definition result (self : t) (f : Future) : Solution :=
  evaluate (problem self) (argument f).

(** [future.cancel()] for every future of the pool. *)
Definition cancel_all (c : Client) (futures : list Future) : Client :=
  mkClient (arrival c) (submitted c) (cancelled c ++ futures).

(** The frame of [run]: the instance, the three locals and the world. *)
Record Frame : Type := mkFrame {
  self : t;
  population_to_evaluate : list Solution;
  task_pool : list Future;
  local_population : list Solution;
  world : World
}.

Fixpoint remove_nth (i : nat) (l : list Future) : list Future :=
  match l, i with
  | [], _ => []
  | _ :: l', 0 => l'
  | x :: l', S i' => x :: remove_nth i' l'
  end.

(** One step of the iterator [as_completed]: [None] is [StopIteration]
    (no future is outstanding); otherwise the future that completes first
    leaves the pool. *)
Definition next_completed (fr : Frame) : option (Future * Frame) :=
  match task_pool fr with
  | [] => None
  | f0 :: _ =>
      let (k, w1) := arrival (client (self fr)) (task_pool fr) (world fr) in
      let i := k mod length (task_pool fr) in
      Some (nth i (task_pool fr) f0,
            mkFrame (self fr) (population_to_evaluate fr)
                    (remove_nth i (task_pool fr)) (local_population fr) w1)
  end.

Inductive Exception : Type := IndexError.

Inductive Control : Type :=
| Continue (fr : Frame)
| Break (fr : Frame)
| Raise (e : Exception).

(** Lines 195-198: the second increment and the progress notification. *)
Definition end_of_iteration (fr : Frame) : Control :=
  let self1 := set_evaluations (evaluations (self fr) + 1) (self fr) in
  let self2 := if evaluations self1 mod 10 =? 0
               then update_progress self1 (population_to_evaluate fr)
               else self1 in
  Continue (mkFrame self2 (population_to_evaluate fr) (task_pool fr)
                    (local_population fr) (world fr)).

(** The body of [for future in task_pool] (lines 153-198; what the two
    [print]s write is left out). *)
Definition for_body (future : Future) (fr : Frame) : Control :=
  let self1 := set_evaluations (evaluations (self fr) + 1) (self fr) in
  if length (local_population fr) <? population_size self1 then
    (* The initial population is not full *)
    let received_solution := result self1 future in
    let population := local_population fr ++ [received_solution] in
    let (fresh, w1) := create_solution (problem self1) (world fr) in
    let (new_task, client1) := submit (client self1) fresh in
    end_of_iteration
      (mkFrame (set_client client1 self1) (population_to_evaluate fr)
               (task_pool fr ++ [new_task]) population w1)
  else
    if evaluations self1 <? max_evaluations self1 then
      let offspring_population := [result self1 future] in
      (* Replacement *)
      let join_population := local_population fr ++ offspring_population in
      let population :=
        execute (mkRankingAndCrowdingDistanceSelection (population_size self1)
                                                       mkDominanceComparator)
                join_population in
      (* Selection *)
      let (parent1, w1) :=
        selection_execute (selection_operator self1) (population_to_evaluate fr) (world fr) in
      let (parent2, w2) :=
        selection_execute (selection_operator self1) (population_to_evaluate fr) w1 in
      let mating_population := [parent1; parent2] in
      (* Reproduction *)
      let (offspring, w3) :=
        crossover_execute (crossover_operator self1) mating_population w2 in
      match offspring with
      | [] => Raise IndexError
      | offspring0 :: _ =>
          let (solution_to_evaluate, w4) :=
            mutation_execute (mutation_operator self1) offspring0 w3 in
          (* Evaluation *)
          let (new_task, client1) := submit (client self1) solution_to_evaluate in
          end_of_iteration
            (mkFrame (set_client client1 self1) (population_to_evaluate fr)
                     (task_pool fr ++ [new_task]) population w4)
      end
    else
      (* the TIME print reads the clock *)
      let (_, w1) := time_time (world fr) in
      Break (mkFrame (set_client (cancel_all (client self1) (task_pool fr)) self1)
                     (population_to_evaluate fr) (task_pool fr)
                     (local_population fr) w1).

Inductive ForResult : Type :=
| Exhausted (fr : Frame)
| Broke (fr : Frame)
| ForRaised (e : Exception)
| ForOutOfFuel.

Fixpoint for_loop (fuel : nat) (fr : Frame) : ForResult :=
  match fuel with
  | 0 => ForOutOfFuel
  | S fuel' =>
      match next_completed fr with
      | None => Exhausted fr
      | Some (future, fr1) =>
          match for_body future fr1 with
          | Continue fr2 => for_loop fuel' fr2
          | Break fr2 => Broke fr2
          | Raise e => ForRaised e
          end
      end
  end.

Inductive Result (A : Type) : Type :=
| Returned (a : A)
| Raised (e : Exception)
| OutOfFuel.

(** [while self.evaluations < self.max_evaluations: for future in task_pool: ...] *)
Fixpoint while_loop (fuel : nat) (fr : Frame) : Result Frame :=
  match fuel with
  | 0 => OutOfFuel Frame
  | S fuel' =>
      if evaluations (self fr) <? max_evaluations (self fr) then
        match for_loop fuel' fr with
        | Exhausted fr' => while_loop fuel' fr'
        | Broke fr' => while_loop fuel' fr'
        | ForRaised e => Raised Frame e
        | ForOutOfFuel => OutOfFuel Frame
        end
      else Returned Frame fr
  end.

(** Lines 139-149 of [run]. *)
Definition run_prologue (self0 : t) (w : World) : Frame :=
  let (population_to_evaluate, w1) := create_initial_population self0 w in
  let (now, w2) := time_time w1 in
  let self1 := set_start_computing_time now self0 in
  let (futures, client1) := submit_all (client self1) population_to_evaluate in
  mkFrame (set_client client1 self1) population_to_evaluate futures [] w2.

(** Lines 200-201 of [run]. *)
Definition run_epilogue (fr : Frame) : t * World :=
  let (now, w1) := time_time (world fr) in
  let self1 :=
    set_total_computing_time (now - start_computing_time (self fr))%float (self fr) in
  (set_population (Some (local_population fr)) self1, w1).

Definition run (fuel : nat) (self0 : t) (w : World) : Result (t * World) :=
  match while_loop fuel (run_prologue self0 w) with
  | Returned _ fr => Returned _ (run_epilogue fr)
  | Raised _ e => Raised _ e
  | OutOfFuel _ => OutOfFuel _
  end.

Definition get_result (self : t) : option (list Solution) := population self.

End Model.

Arguments mkProblem {World}.
Arguments create_solution {World}.
Arguments evaluate {World}.
Arguments reference_front {World}.
Arguments mkSelection {World}.
Arguments selection_execute {World}.
Arguments mkCrossover {World}.
Arguments crossover_execute {World}.
Arguments mkMutation {World}.
Arguments mutation_execute {World}.
Arguments mkClient {World}.
Arguments arrival {World}.
Arguments submitted {World}.
Arguments cancelled {World}.
Arguments mk {World}.
Arguments problem {World}.
Arguments max_evaluations {World}.
Arguments mutation_operator {World}.
Arguments crossover_operator {World}.
Arguments selection_operator {World}.
Arguments population {World}.
Arguments population_size {World}.
Arguments number_of_cores {World}.
Arguments client {World}.
Arguments observable {World}.
Arguments evaluations {World}.
Arguments start_computing_time {World}.
Arguments total_computing_time {World}.
Arguments init {World}.
Arguments set_population {World}.
Arguments set_client {World}.
Arguments set_observable {World}.
Arguments set_evaluations {World}.
Arguments set_start_computing_time {World}.
Arguments set_total_computing_time {World}.
Arguments update_progress {World}.
Arguments create_solutions {World}.
Arguments create_initial_population {World}.
Arguments submit {World}.
Arguments submit_all {World}.
Arguments result {World}.
Arguments cancel_all {World}.
Arguments mkFrame {World}.
Arguments self {World}.
Arguments population_to_evaluate {World}.
Arguments task_pool {World}.
Arguments local_population {World}.
Arguments world {World}.
Arguments next_completed {World}.
Arguments Continue {World}.
Arguments Break {World}.
Arguments Raise {World}.
Arguments end_of_iteration {World}.
Arguments for_body {World}.
Arguments Exhausted {World}.
Arguments Broke {World}.
Arguments ForRaised {World}.
Arguments ForOutOfFuel {World}.
Arguments for_loop {World}.
Arguments Returned {A}.
Arguments Raised {A}.
Arguments OutOfFuel {A}.
Arguments while_loop {World}.
Arguments run_prologue {World}.
Arguments run_epilogue {World}.
Arguments run {World}.
Arguments get_result {World}.

End DistributedNSGAII.

(** ** [jmetalpy.problem.multiobjective.dtlz]: class [DTLZ1] *)

Module DTLZ1.

(** Modelled from the spec: [FloatSolution] ([jmetalpy.core.solution] is
    not among the sources): the two attributes that [evaluate] reads and
    writes, ordered sequences of real values (section 3), here floats. *)
Record FloatSolution : Type := mkFloatSolution {
  variables : list float;
  objectives : list float
}.

Record t : Type := mk {
  number_of_variables : Z;
  number_of_objectives : Z;
  number_of_constraints : Z;
  lower_bound : list float;
  upper_bound : list float
}.

(** [__init__(number_of_variables=30, number_of_objectives=3)] *)
Definition init (number_of_variables number_of_objectives : Z) : t :=
  mk number_of_variables number_of_objectives 0
     (repeat 0%float (Z.to_nat number_of_variables))
     (repeat 1%float (Z.to_nat number_of_variables)).

(** Python's [range(a, b)]. *)
Definition py_range (a b : Z) : list Z :=
  map (fun k => (a + Z.of_nat k)%Z) (seq 0 (Z.to_nat (b - a))).

(** Python's [l[i]]: a negative index counts from the end; [None] stands
    for [IndexError]. *)
Definition getitem (l : list float) (i : Z) : option float :=
  let n := Z.of_nat (length l) in
  if (0 <=? i)%Z then nth_error l (Z.to_nat i)
  else if (0 <=? n + i)%Z then nth_error l (Z.to_nat (n + i))
  else None.

Fixpoint replace_nth (l : list float) (i : nat) (v : float) : option (list float) :=
  match l, i with
  | [], _ => None
  | _ :: l', 0 => Some (v :: l')
  | x :: l', S i' =>
      match replace_nth l' i' v with
      | Some r => Some (x :: r)
      | None => None
      end
  end.

(** Python's [l[i] = v]. *)
Definition setitem (l : list float) (i : Z) (v : float) : option (list float) :=
  let n := Z.of_nat (length l) in
  if (0 <=? i)%Z then replace_nth l (Z.to_nat i) v
  else if (0 <=? n + i)%Z then replace_nth l (Z.to_nat (n + i)) v
  else None.

(** [for i in indices: state = body i state], stopping at the first
    exception. *)
Fixpoint for_each {S : Type} (indices : list Z) (body : Z -> S -> option S) (s : S)
  : option S :=
  match indices with
  | [] => Some s
  | i :: rest =>
      match body i s with
      | Some s' => for_each rest body s'
      | None => None
      end
  end.

(** Conversion of a Python [int] in a float operation (exact below 2^53). *)
Definition float_of_Z (z : Z) : float :=
  match z with
  | Z0 => 0%float
  | Zpos _ => PrimFloat.of_uint63 (Uint63.of_Z z)
  | Zneg p => PrimFloat.opp (PrimFloat.of_uint63 (Uint63.of_Z (Zpos p)))
  end.

(** [math.pi] *)
Definition pi : float := 0x1.921fb54442d18p+1%float.

Inductive Exception : Type := IndexError.

(** What a Python call returns: an object, or [None]. *)
Inductive Value : Type :=
| NoneValue
| SolutionValue (s : FloatSolution).

(** The outcome of a call of [evaluate]: the returned value together with
    the state of the argument object after the call, or an exception. *)
Inductive Outcome : Type :=
| Returns (v : Value) (solution : FloatSolution)
| Raises (e : Exception).

Section Evaluate.

(** [math.cos] *)
Variable cos : float -> float.

Local Open Scope float_scope.

(** Lines 31-33: [g += (x[i] - 0.5) * (x[i] - 0.5) - cos(20.0 * pi * (x[i] - 0.5))] *)
Definition accumulate_g (solution : FloatSolution) (i : Z) (g : float) : option float :=
  match getitem (variables solution) i with
  | Some xi => Some (g + ((xi - 0.5) * (xi - 0.5) - cos (20.0 * pi * (xi - 0.5))))
  | None => None
  end.

(** Line 37: [solution.objectives[i] = (1.0 + g) * 0.5] *)
Definition assign_objective (g : float) (i : Z) (solution : FloatSolution)
  : option FloatSolution :=
  match setitem (objectives solution) i ((1.0 + g) * 0.5) with
  | Some objs => Some (mkFloatSolution (variables solution) objs)
  | None => None
  end.

(** [solution.objectives[i] *= factor] *)
Definition scale_objective (i : Z) (factor : float) (solution : FloatSolution)
  : option FloatSolution :=
  match getitem (objectives solution) i with
  | Some fi =>
      match setitem (objectives solution) i (fi * factor) with
      | Some objs => Some (mkFloatSolution (variables solution) objs)
      | None => None
      end
  | None => None
  end.

(** Lines 40-41: [solution.objectives[i] *= solution.variables[j]]; the
    target [objectives[i]] is read before the right-hand side. *)
Definition multiply_by_variable (i j : Z) (solution : FloatSolution) : option FloatSolution :=
  match getitem (objectives solution) i with
  | Some _ =>
      match getitem (variables solution) j with
      | Some xj => scale_objective i xj solution
      | None => None
      end
  | None => None
  end.

(** Lines 39-45: the body of the last loop. *)
Definition shape_objective (self : t) (i : Z) (solution : FloatSolution)
  : option FloatSolution :=
  match for_each (py_range 0 (number_of_objectives self - (i + 1)))
                 (multiply_by_variable i) solution with
  | Some solution1 =>
      if (i =? 0)%Z then Some solution1
      else
        let aux := (number_of_objectives self - (i + 1))%Z in
        match getitem (objectives solution1) i with
        | Some _ =>
            match getitem (variables solution1) aux with
            | Some xa => scale_objective i (1 - xa) solution1
            | None => None
            end
        | None => None
        end
  | None => None
  end.

(** [DTLZ1.evaluate]: the body has no [return] statement, so a call that
    raises nothing returns [None]. *)
Definition evaluate (self : t) (solution : FloatSolution) : Outcome :=
  let g := 0.0 in
  let k := (number_of_variables self - number_of_objectives self + 1)%Z in
  match for_each (py_range (number_of_variables self - k) (number_of_variables self))
                 (accumulate_g solution) g with
  | None => Raises IndexError
  | Some g1 =>
      let g2 := 100 * (float_of_Z k + g1) in
      match for_each (py_range 0 (number_of_objectives self)) (assign_objective g2) solution with
      | None => Raises IndexError
      | Some solution1 =>
          match for_each (py_range 0 (number_of_objectives self))
                         (shape_objective self) solution1 with
          | None => Raises IndexError
          | Some solution2 => Returns NoneValue solution2
          end
      end
  end.

End Evaluate.

End DTLZ1.

(** ** A concrete environment

    A deterministic instance of every interface, used to run the scheduler
    on explicit inputs: solutions are numbered by the tick at which they
    are created, the selection operator records the list it is asked to
    choose from, and futures complete in submission order. *)

Module Scenario.
Import Core.

Record World : Type := mkWorld {
  ticks : nat;
  selection_log : list (list Solution)
}.

Definition tick (w : World) : World := mkWorld (S (ticks w)) (selection_log w).

Definition Qnat (n : nat) : Q := inject_Z (Z.of_nat n).

Definition time_time (w : World) : float * World :=
  (PrimFloat.of_uint63 (Uint63.of_Z (Z.of_nat (ticks w))), tick w).

(** A fresh, not yet evaluated solution with one decision variable. *)
Definition create_solution (w : World) : Solution * World :=
  (mkSolution [Qnat (ticks w)] [] [] None None, tick w).

(** Two conflicting objectives, [x] and [-x]. *)
Definition evaluate (s : Solution) : Solution :=
  let x := hd 0%Q (variables s) in
  mkSolution (variables s) [x; (- x)%Q] (constraints s) (rank s) (crowding_distance s).

Definition problem : DistributedNSGAII.Problem World :=
  DistributedNSGAII.mkProblem create_solution evaluate None.

Definition selection : DistributedNSGAII.Selection World :=
  DistributedNSGAII.mkSelection
    (fun l w => (hd (mkSolution [] [] [] None None) l,
                 mkWorld (S (ticks w)) (selection_log w ++ [l]))).

Definition crossover : DistributedNSGAII.Crossover World :=
  DistributedNSGAII.mkCrossover (fun parents w => (parents, tick w)).

Definition mutation : DistributedNSGAII.Mutation World :=
  DistributedNSGAII.mkMutation
    (fun s w => (mkSolution (map (fun x => (x + (1 # 2))%Q) (variables s)) (objectives s)
                            (constraints s) (rank s) (crowding_distance s),
                 tick w)).

Definition client : DistributedNSGAII.Client World :=
  DistributedNSGAII.mkClient (fun _ w => (0, w)) [] [].

(** One registered observer, numbered 7. *)
Definition default_observable : DistributedNSGAII.Observable :=
  DistributedNSGAII.mkObservable [7] [].

Definition algorithm (population_size max_evaluations number_of_cores : nat)
  : DistributedNSGAII.t World :=
  DistributedNSGAII.init population_size problem max_evaluations
                         mutation crossover selection number_of_cores client
                         default_observable.

Definition w0 : World := mkWorld 0 [].

End Scenario.

(** The frame after [k] further completions have been consumed without
    leaving the loop. *)
Fixpoint completions {World : Type} (time_time : World -> float * World) (k : nat)
         (fr : DistributedNSGAII.Frame World) : option (DistributedNSGAII.Frame World) :=
  match k with
  | 0 => Some fr
  | S k' =>
      match DistributedNSGAII.next_completed fr with
      | Some (future, fr1) =>
          match DistributedNSGAII.for_body time_time future fr1 with
          | DistributedNSGAII.Continue fr2 => completions time_time k' fr2
          | _ => None
          end
      | None => None
      end
  end.

(** Frames of runs in the concrete environment. *)

Definition scenario_start (population_size max_evaluations number_of_cores : nat)
  : DistributedNSGAII.Frame Scenario.World :=
  DistributedNSGAII.run_prologue
    Scenario.time_time
    (Scenario.algorithm population_size max_evaluations number_of_cores) Scenario.w0.

Definition frame_after (k : nat) (fr0 : DistributedNSGAII.Frame Scenario.World)
  : DistributedNSGAII.Frame Scenario.World :=
  match completions Scenario.time_time k fr0 with
  | Some fr => fr
  | None => fr0
  end.

(** The next completion and the frame in which its iteration starts. *)
Definition consume (fr : DistributedNSGAII.Frame Scenario.World)
  : DistributedNSGAII.Future * DistributedNSGAII.Frame Scenario.World :=
  match DistributedNSGAII.next_completed fr with
  | Some p => p
  | None => (DistributedNSGAII.mkFuture 0 (Core.mkSolution [] [] [] None None), fr)
  end.

(** The frame an iteration ends in. *)
Definition iteration (fr : DistributedNSGAII.Frame Scenario.World)
  : DistributedNSGAII.Frame Scenario.World :=
  match DistributedNSGAII.for_body Scenario.time_time (fst (consume fr)) (snd (consume fr)) with
  | DistributedNSGAII.Continue fr2 => fr2
  | DistributedNSGAII.Break fr2 => fr2
  | DistributedNSGAII.Raise _ => fr
  end.

(** ** Vocabulary of the proofs *)

Module Counting.

(** The number of occurrences of [q] in [l]. *)
Definition occ (q : nat) (l : list nat) : nat := count_occ Nat.eq_dec l q.

Definition mem (p : nat) (l : list nat) : bool := existsb (Nat.eqb p) l.

End Counting.

Module SortInvariant.
Import Core Counting.

Section Sort.

Variable population : list Solution.

(** The key order, on positions. *)
Definition key_lt_at (p q : nat) : bool :=
  match nth_error population p, nth_error population q with
  | Some a, Some b => key_ltb a b
  | _, _ => false
  end.

(** The positions not in [done]. *)
Definition undone (done : list nat) : list nat :=
  filter (fun p => negb (mem p done)) (seq 0 (length population)).

(** How many solutions not in [done] dominate [q]. *)
Definition remaining (done : list nat) (q : nat) : nat :=
  length (filter (fun p => dominates_at population p q) (undone done)).

(** The invariant of the loop of the sort: [done] are the members of the
    fronts already emitted, [front] is the current front, and every count
    is the number of dominators that are not yet done. *)
Record Inv (done front counts : list nat) : Prop := mkInv {
  inv_nodup : NoDup (done ++ front);
  inv_bound : forall x, In x (done ++ front) -> x < length population;
  inv_length : length counts = length population;
  inv_count :
    forall q, q < length population -> nth q counts 0 = remaining done q;
  inv_zero :
    forall q, q < length population -> (nth q counts 0 = 0 <-> In q (done ++ front))
}.

End Sort.

End SortInvariant.

Module Reachability.
Import Core DistributedNSGAII.

Section Frames.

Variable World : Type.
Variable time_time : World -> float * World.

(** The attributes that [run] never assigns after the prologue, and
    [self.population], which only the epilogue assigns. *)
Record same_static (a b : DistributedNSGAII.t World) : Prop := mkSameStatic {
  ss_problem : problem b = problem a;
  ss_max : max_evaluations b = max_evaluations a;
  ss_mutation : mutation_operator b = mutation_operator a;
  ss_crossover : crossover_operator b = crossover_operator a;
  ss_selection : selection_operator b = selection_operator a;
  ss_size : population_size b = population_size a;
  ss_cores : number_of_cores b = number_of_cores a;
  ss_population : population b = population a;
  ss_arrival : arrival (client b) = arrival (client a);
  ss_observers : observers (observable b) = observers (observable a)
}.

(** Every frame [run] goes through before its epilogue. *)
Inductive during_run (self0 : DistributedNSGAII.t World) (w0 : World)
  : Frame World -> Prop :=
| dr_prologue : during_run self0 w0 (run_prologue time_time self0 w0)
| dr_consumed (fr fr1 : Frame World) (future : Future) :
    during_run self0 w0 fr -> next_completed fr = Some (future, fr1) ->
    during_run self0 w0 fr1
| dr_continue (fr fr2 : Frame World) (future : Future) :
    during_run self0 w0 fr -> for_body time_time future fr = Continue fr2 ->
    during_run self0 w0 fr2
| dr_break (fr fr2 : Frame World) (future : Future) :
    during_run self0 w0 fr -> for_body time_time future fr = Break fr2 ->
    during_run self0 w0 fr2.

End Frames.

Arguments same_static {World}.
Arguments ss_problem {World}.
Arguments ss_max {World}.
Arguments ss_mutation {World}.
Arguments ss_crossover {World}.
Arguments ss_selection {World}.
Arguments ss_size {World}.
Arguments ss_cores {World}.
Arguments ss_population {World}.
Arguments ss_arrival {World}.
Arguments ss_observers {World}.
Arguments during_run {World}.
Arguments dr_prologue {World}.


End Reachability.

(** ** [DTLZ1.evaluate] in closed form *)

Module DTLZ1Formula.

Section Formula.

(** [math.cos] *)
Variable cos : float -> float.

Local Open Scope float_scope.





End Formula.


End DTLZ1Formula.

(** ** More vocabulary for the coordinator loop *)

Module Trace.
Import Core DistributedNSGAII.

(** The futures taken from the pool by the first [k] completions, in the
    order in which they completed. *)
Fixpoint consumed {World : Type} (time_time : World -> float * World) (k : nat)
         (fr : Frame World) : list Future :=
  match k with
  | 0 => []
  | S k' =>
      match next_completed fr with
      | Some (future, fr1) =>
          future :: match for_body time_time future fr1 with
                    | Continue fr2 => consumed time_time k' fr2
                    | _ => []
                    end
      | None => []
      end
  end.

(** What the observers have received: who, and with which value of the
    counter. *)
Definition notifications {World : Type} (self : DistributedNSGAII.t World)
  : list (nat * nat) :=
  map (fun d => (fst d, EVALUATIONS (snd d))) (delivered (observable self)).

End Trace.

(** ** [jmetal.util.laboratory]: classes [Job] and [Experiment] *)

From Stdlib Require String.

Module Laboratory.
Import String.
Local Open Scope string_scope.
Local Set Warnings "-inexact-float".

Inductive Exception : Type :=
| PlainException (message : string)  (* [raise Exception(message)] *)
| ValueError                         (* raised by [ProcessPoolExecutor] *)
| Propagated.                        (* raised inside an algorithm or a library *)

Inductive Outcome (A : Type) : Type :=
| Returns (a : A)
| Raises (e : Exception).

Arguments Returns {A}.
Arguments Raises {A}.

Section Model.

(** The interface [Algorithm] ([jmetal.core.algorithm] is not among the
    sources), as [Job] uses it: [run()], which changes the algorithm object
    or raises ([None]), and [get_result()]. *)
Variable Algorithm : Type.
Variable Result : Type.
Variable algorithm_run : Algorithm -> option Algorithm.
Variable algorithm_get_result : Algorithm -> Result.

(** The interface [QualityIndicator] ([jmetal.component.quality_indicator]
    is not among the sources), as [Job] and [Experiment] use it. *)
Variable Value : Type.

Record QualityIndicator : Type := mkQualityIndicator {
  compute : Result -> Value;
  get_name : string
}.

(** The attributes of a [Job]; [algorithm] is a reference to an algorithm
    object, which several jobs may share. *)
Record Job : Type := mkJob {
  algorithm : nat;
  problem_name : string;
  id_ : Z;
  label_ : string;
  executed : bool
}.

(** The objects in memory: algorithms and jobs, by reference. *)
Record Memory : Type := mkMemory {
  algorithm_at : nat -> Algorithm;
  job_at : nat -> Job
}.

Definition store {A : Type} (f : nat -> A) (r : nat) (v : A) : nat -> A :=
  fun r' => if Nat.eqb r' r then v else f r'.

(** [Job.__init__] *)
Definition Job_init (algorithm : nat) (problem_name label : string) (run : Z) : Job :=
  mkJob algorithm problem_name run label false.

(** [Job.run] *)
Definition Job_run (m : Memory) (self : nat) : Outcome Memory :=
  let job := job_at m self in
  match algorithm_run (algorithm_at m (algorithm job)) with
  | None => Raises Propagated
  | Some a =>
      let m1 := mkMemory (store (algorithm_at m) (algorithm job) a) (job_at m) in
      Returns (mkMemory (algorithm_at m1)
                        (store (job_at m1) self
                               (mkJob (algorithm job) (problem_name job) (id_ job)
                                      (label_ job) true)))
  end.

(** [Job.evaluate] *)
Definition Job_evaluate (m : Memory) (self : nat) (metric : QualityIndicator)
  : Outcome Value :=
  let job := job_at m self in
  if negb (executed job) then Raises (PlainException "Algorithm must be run first")
  else Returns (compute metric (algorithm_get_result (algorithm_at m (algorithm job)))).

(** The attributes of an [Experiment]; [jobs] is a list of references. *)
Record Experiment : Type := mkExperiment {
  base_dir : string;
  jobs : list nat;
  m_workers : Z
}.

(** [Experiment.__init__(base_directory, jobs, m_workers=3)] *)
Definition Experiment_init (base_directory : string) (jobs : list nat) (m_workers : Z)
  : Experiment :=
  mkExperiment base_directory jobs m_workers.

(** [for job in self.jobs: executor.submit(job.run())]: [job.run()] is
    called, in the calling process, before [submit] is; what is submitted
    is its return value, [None], a task that fails in its worker without
    any effect on the caller. *)
Fixpoint run_jobs (m : Memory) (jobs : list nat) : Outcome Memory :=
  match jobs with
  | [] => Returns m
  | job :: rest =>
      match Job_run m job with
      | Returns m1 => run_jobs m1 rest
      | Raises e => Raises e
      end
  end.

(** [Experiment.run]; [ProcessPoolExecutor(max_workers=n)] raises
    [ValueError] when [n <= 0]. *)
Definition Experiment_run (m : Memory) (self : Experiment) : Outcome Memory :=
  if (m_workers self <=? 0)%Z then Raises ValueError
  else run_jobs m (jobs self).

(** [pandas], as [compute_metrics] uses it: the empty frame, the
    one-row frame built from the dictionary, [append], and the grouping by
    problem and run followed by [mean], which may raise. *)
Variable DataFrame : Type.
Variable empty_frame : DataFrame.
Variable one_row : string -> Z -> string -> string -> Value -> DataFrame.
Variable append : DataFrame -> DataFrame -> DataFrame.
Variable groupby_mean : DataFrame -> option DataFrame.

(** The inner loop of [compute_metrics]: one row for each metric. *)
Fixpoint rows_of_job (m : Memory) (job : nat) (metrics : list QualityIndicator)
         (df : DataFrame) : Outcome DataFrame :=
  match metrics with
  | [] => Returns df
  | metric :: rest =>
      match Job_evaluate m job metric with
      | Raises e => Raises e
      | Returns v =>
          let new_data := one_row (problem_name (job_at m job)) (id_ (job_at m job))
                                  (get_name metric) (label_ (job_at m job)) v in
          rows_of_job m job rest (append df new_data)
      end
  end.

(** The outer loop of [compute_metrics]. *)
Fixpoint rows_of_jobs (m : Memory) (jobs : list nat) (metrics : list QualityIndicator)
         (df : DataFrame) : Outcome DataFrame :=
  match jobs with
  | [] => Returns df
  | job :: rest =>
      match rows_of_job m job metrics df with
      | Raises e => Raises e
      | Returns df1 => rows_of_jobs m rest metrics df1
      end
  end.

(** [Experiment.compute_metrics]: the frame returned and the file
    written, as (path, content).  What is printed and logged is left out. *)
Definition compute_metrics (m : Memory) (self : Experiment) (metrics : list QualityIndicator)
  : Outcome (DataFrame * (string * DataFrame)) :=
  match rows_of_jobs m (jobs self) metrics empty_frame with
  | Raises e => Raises e
  | Returns df =>
      match groupby_mean df with
      | None => Raises Propagated
      | Some df1 => Returns (df1, (base_dir self ++ "/metrics_df.csv", df1))
      end
  end.

(** A Python number: the placeholders [-1] are [int]s, what [scipy]
    returns are floats. *)
Inductive Number : Type :=
| IntNumber (z : Z)
| FloatNumber (x : float).

(** [scipy.stats], as [compute_statistical_analysis] uses it; each test
    returns (statistic, pvalue) or raises ([None]). *)
Variable kstest_norm : list float -> option (float * float).
Variable wilcoxon : list float -> list float -> option (float * float).
Variable kruskal : list (list float) -> option (float * float).

(** Lines 98-105: [Some false] when a data set with [pvalue > 0.05] is
    met (the loop breaks there), [Some true] when there is none, [None]
    when [kstest] raises. *)
Fixpoint normality_test (data_list : list (list float)) : option bool :=
  match data_list with
  | [] => Some true
  | data :: rest =>
      match kstest_norm data with
      | None => None
      | Some (_, pvalue) =>
          if PrimFloat.ltb 0.05%float pvalue then Some false
          else normality_test rest
      end
  end.

Definition as_numbers (r : option (float * float)) : Outcome (Number * Number) :=
  match r with
  | Some (statistic, pvalue) => Returns (FloatNumber statistic, FloatNumber pvalue)
  | None => Raises Propagated
  end.

(** [Experiment.compute_statistical_analysis] *)
Definition compute_statistical_analysis (data_list : list (list float))
  : Outcome (Number * Number) :=
  if (List.length data_list <? 2)%nat
  then Raises (PlainException "Data sets number must be equal or greater than two")
  else
    match normality_test data_list with
    | None => Raises Propagated
    | Some normal =>
        if negb normal then
          match data_list with
          | [data0; data1] => as_numbers (wilcoxon data0 data1)
          | _ => as_numbers (kruskal data_list)
          end
        else Returns (IntNumber (-1), IntNumber (-1))
    end.

End Model.

Arguments mkQualityIndicator {Result Value}.
Arguments compute {Result Value}.
Arguments get_name {Result Value}.
Arguments mkMemory {Algorithm}.
Arguments algorithm_at {Algorithm}.
Arguments job_at {Algorithm}.
Arguments Job_run {Algorithm}.
Arguments Job_evaluate {Algorithm Result} algorithm_get_result {Value}.
Arguments run_jobs {Algorithm}.
Arguments Experiment_run {Algorithm}.
Arguments rows_of_job {Algorithm Result} algorithm_get_result {Value DataFrame}.
Arguments rows_of_jobs {Algorithm Result} algorithm_get_result {Value DataFrame}.
Arguments compute_metrics {Algorithm Result} algorithm_get_result {Value DataFrame}.

End Laboratory.

(** ** [jmetal.core.problem]: [FloatProblem] and [IntegerProblem] *)

Module CoreProblem.

Inductive Exception : Type :=
| IndexError      (* [l[i]] out of range *)
| OverflowError   (* an [int] too large for a float; [int] of an infinity *)
| ValueError.     (* [int] of a NaN *)

Inductive Outcome (A : Type) : Type :=
| Returns (a : A)
| Raises (e : Exception).

Arguments Returns {A}.
Arguments Raises {A}.

(** Python's [l[i]] for the indices of a [range(n)], which are not
    negative; [None] stands for [IndexError]. *)
Definition getitem {A : Type} (l : list A) (i : Z) : option A :=
  if (0 <=? i)%Z then nth_error l (Z.to_nat i) else None.

(** The conversion of an [int] operand of a float operation: the nearest
    float, ties to even; [OverflowError] beyond the range of floats. *)
Definition float_of_int (z : Z) : Outcome float :=
  match binary_normalize prec emax z 0 false with
  | S754_infinity _ => Raises OverflowError
  | x => Returns (SF2Prim x)
  end.

(** Python's [int(x)] for a float [x]: truncation towards zero. *)
Definition int_of_float (x : float) : Outcome Z :=
  match Prim2SF x with
  | S754_zero _ => Returns 0%Z
  | S754_infinity _ => Raises OverflowError
  | S754_nan => Raises ValueError
  | S754_finite s m e =>
      let magnitude := if (0 <=? e)%Z then Z.shiftl (Zpos m) e
                       else Z.shiftr (Zpos m) (- e) in
      Returns (if s then (- magnitude)%Z else magnitude)
  end.

Section Model.

(** The state of the module [random]. *)
Variable World : Type.

(** [random.uniform(a, b)] *)
Variable uniform : float -> float -> World -> float * World.

(** The classes [FloatSolution] and [IntegerSolution]
    ([jmetal.core.solution] is not among the sources), as
    [create_solution] uses them: the constructor, and the attribute
    [variables], which is assigned afterwards.  [Attributes] stands for
    the other attributes of the object, as the constructor leaves them. *)
Variable Attributes : Type.
Variable FloatSolution_init :
  Z -> Z -> Z -> list float -> list float -> Attributes.
Variable IntegerSolution_init :
  Z -> Z -> Z -> list Z -> list Z -> Attributes.

Record FloatSolution : Type := mkFloatSolution {
  float_variables : list float;
  float_attributes : Attributes
}.

Record IntegerSolution : Type := mkIntegerSolution {
  integer_variables : list Z;
  integer_attributes : Attributes
}.

(** The attributes of a problem ([Problem.__init__] and the [__init__] of
    the subclass), with the bounds as a subclass sets them: lists. *)
Record Problem (Bound : Type) : Type := mkProblem {
  number_of_variables : Z;
  number_of_objectives : Z;
  number_of_constraints : Z;
  lower_bound : list Bound;
  upper_bound : list Bound
}.

Arguments number_of_variables {Bound}.
Arguments number_of_objectives {Bound}.
Arguments number_of_constraints {Bound}.
Arguments lower_bound {Bound}.
Arguments upper_bound {Bound}.

(** [[element i for i in indices]], stopping at the first exception. *)
Fixpoint comprehension {A : Type} (element : Z -> World -> Outcome (A * World))
         (indices : list Z) (w : World) : Outcome (list A * World) :=
  match indices with
  | [] => Returns ([], w)
  | i :: rest =>
      match element i w with
      | Raises e => Raises e
      | Returns (x, w1) =>
          match comprehension element rest w1 with
          | Raises e => Raises e
          | Returns (xs, w2) => Returns (x :: xs, w2)
          end
      end
  end.

(** [random.uniform(self.lower_bound[i]*1.0, self.upper_bound[i]*1.0)]
    with float bounds. *)
Definition float_element (self : Problem float) (i : Z) (w : World)
  : Outcome (float * World) :=
  match getitem (lower_bound self) i with
  | None => Raises IndexError
  | Some l =>
      match getitem (upper_bound self) i with
      | None => Raises IndexError
      | Some u => Returns (uniform (l * 1.0)%float (u * 1.0)%float w)
      end
  end.

(** [FloatProblem.create_solution] *)
Definition FloatProblem_create_solution (self : Problem float) (w : World)
  : Outcome (FloatSolution * World) :=
  let new_solution :=
    FloatSolution_init (number_of_variables self) (number_of_objectives self)
                       (number_of_constraints self)
                       (lower_bound self) (upper_bound self) in
  match comprehension (float_element self)
                      (DTLZ1.py_range 0 (number_of_variables self)) w with
  | Raises e => Raises e
  | Returns (variables, w1) => Returns (mkFloatSolution variables new_solution, w1)
  end.

(** [int(random.uniform(self.lower_bound[i]*1.0, self.upper_bound[i]*1.0))]
    with [int] bounds. *)
Definition integer_element (self : Problem Z) (i : Z) (w : World)
  : Outcome (Z * World) :=
  match getitem (lower_bound self) i with
  | None => Raises IndexError
  | Some l =>
      match float_of_int l with
      | Raises e => Raises e
      | Returns lf =>
          match getitem (upper_bound self) i with
          | None => Raises IndexError
          | Some u =>
              match float_of_int u with
              | Raises e => Raises e
              | Returns uf =>
                  let (x, w1) := uniform (lf * 1.0)%float (uf * 1.0)%float w in
                  match int_of_float x with
                  | Raises e => Raises e
                  | Returns z => Returns (z, w1)
                  end
              end
          end
      end
  end.

(** [IntegerProblem.create_solution] *)
Definition IntegerProblem_create_solution (self : Problem Z) (w : World)
  : Outcome (IntegerSolution * World) :=
  let new_solution :=
    IntegerSolution_init (number_of_variables self) (number_of_objectives self)
                         (number_of_constraints self)
                         (lower_bound self) (upper_bound self) in
  match comprehension (integer_element self)
                      (DTLZ1.py_range 0 (number_of_variables self)) w with
  | Raises e => Raises e
  | Returns (variables, w1) => Returns (mkIntegerSolution variables new_solution, w1)
  end.

End Model.

Arguments mkProblem {Bound}.
Arguments number_of_variables {Bound}.
Arguments number_of_objectives {Bound}.
Arguments number_of_constraints {Bound}.
Arguments lower_bound {Bound}.
Arguments upper_bound {Bound}.
Arguments comprehension {World A}.
Arguments mkFloatSolution {Attributes}.
Arguments mkIntegerSolution {Attributes}.
Arguments float_variables {Attributes}.
Arguments float_attributes {Attributes}.
Arguments integer_variables {Attributes}.
Arguments integer_attributes {Attributes}.

End CoreProblem.

(** ** Notions used to state the properties of [Experiment] and of
    [create_solution] *)

Module Repeated.

(** [n] calls of [run()] in a row on one algorithm object; [None] when one
    of them raises. *)
Fixpoint run_times {Algorithm : Type} (algorithm_run : Algorithm -> option Algorithm)
         (n : nat) (a : Algorithm) : option Algorithm :=
  match n with
  | 0 => Some a
  | S n' =>
      match algorithm_run a with
      | Some a' => run_times algorithm_run n' a'
      | None => None
      end
  end.

(** The row that [compute_metrics] appends for a job and a metric. *)
Definition row_of {Algorithm Result Value DataFrame : Type}
           (algorithm_get_result : Algorithm -> Result)
           (one_row : String.string -> Z -> String.string -> String.string -> Value
                      -> DataFrame)
           (append : DataFrame -> DataFrame -> DataFrame)
           (m : Laboratory.Memory Algorithm)
           (df : DataFrame) (jm : nat * Laboratory.QualityIndicator Result Value)
  : DataFrame :=
  let job := Laboratory.job_at m (fst jm) in
  append df
         (one_row (Laboratory.problem_name job) (Laboratory.id_ job)
                  (Laboratory.get_name (snd jm)) (Laboratory.label_ job)
                  (Laboratory.compute (snd jm)
                     (algorithm_get_result
                        (Laboratory.algorithm_at m (Laboratory.algorithm job))))).

End Repeated.

Module Draws.

(** One call of [uniform] for each pair of bounds, from left to right. *)
Fixpoint draw_all {World : Type} (uniform : float -> float -> World -> float * World)
         (bounds : list (float * float)) (w : World) : list float * World :=
  match bounds with
  | [] => ([], w)
  | (l, u) :: rest =>
      let (x, w1) := uniform (l * 1.0)%float (u * 1.0)%float w in
      let (xs, w2) := draw_all uniform rest w1 in
      (x :: xs, w2)
  end.

End Draws.

(** ** Further concrete environments *)

(** The environment of [Scenario] with a crossover that returns no
    offspring. *)
Module Barren.

Definition crossover : DistributedNSGAII.Crossover Scenario.World :=
  DistributedNSGAII.mkCrossover (fun _ w => ([], Scenario.tick w)).

Definition algorithm (population_size max_evaluations number_of_cores : nat)
  : DistributedNSGAII.t Scenario.World :=
  DistributedNSGAII.init population_size Scenario.problem max_evaluations
                         Scenario.mutation crossover Scenario.selection
                         number_of_cores Scenario.client Scenario.default_observable.

End Barren.

(** An experiment of three jobs on two algorithm objects: an algorithm is
    the number of times it has been run, its result is that number. *)
Module Bench.
Import (notations) String.
Import Laboratory.

Definition algorithm_run (a : nat) : option nat := Some (S a).

Definition algorithm_get_result (a : nat) : nat := a.

Definition metric : QualityIndicator nat nat := mkQualityIndicator (fun r => 10 * r) "HV".

(** Jobs 0 and 2 share the algorithm object 0, job 1 has the algorithm
    object 1. *)
Definition job (executed : bool) (j : nat) : Job :=
  mkJob (j mod 2) "ZDT1" (Z.of_nat j) "NSGAII" executed.

Definition memory (executed : bool) : Memory nat := mkMemory (fun _ => 0) (job executed).

Definition experiment : Experiment := Experiment_init "out" [0; 1; 2] 3.

(** A data frame as the list of its rows. *)
Definition DataFrame : Type := list (String.string * Z * String.string * String.string * nat).

Definition one_row (problem : String.string) (run : Z) (name label : String.string)
           (value : nat) : DataFrame :=
  [(problem, run, name, label, value)].

Definition groupby_mean (df : DataFrame) : option DataFrame := Some df.

(** Tests that return the first value of the data as the p-value. *)
Definition kstest_norm (data : list float) : option (float * float) :=
  Some (0%float, hd 0%float data).

Definition wilcoxon (data0 data1 : list float) : option (float * float) :=
  Some (1%float, 0.5%float).

Definition kruskal (data_list : list (list float)) : option (float * float) :=
  Some (2%float, 0.25%float).

End Bench.

(** Problems with three variables; [random.random()] returns one half. *)
Module Boxes.
Import CoreProblem.

Definition uniform (a b : float) (w : nat) : float * nat :=
  ((a + (b - a) * 0.5)%float, S w).

Definition FloatSolution_init (_ _ _ : Z) (_ _ : list float) : unit := tt.

Definition IntegerSolution_init (_ _ _ : Z) (_ _ : list Z) : unit := tt.

Definition float_problem (upper_bound : list float) : Problem float :=
  mkProblem 3 2 0 [0; 1; 2]%float upper_bound.

Definition integer_problem : Problem Z :=
  mkProblem 3 2 0 [0; 10; -7]%Z [5; 20; -2; 9]%Z.

End Boxes.

(* ================================================================== *)
(** * Part II. Theorems                                                *)
(* ================================================================== *)

(** ** Domination is acyclic *)

Section MinimalElement.

Variable A : Type.
Variable lt : A -> A -> bool.
Hypothesis lt_irrefl : forall x, lt x x = false.
Hypothesis lt_trans : forall x y z, lt x y = true -> lt y z = true -> lt x z = true.

(** A non-empty list has a member that no member is below. *)
Lemma exists_minimal (l : list A) :
  l <> [] -> exists m, In m l /\ forall x, In x l -> lt x m = false.
Proof.
  induction l as [|a l IH]; [congruence|]. intros _.
  destruct l as [|b l].
  - exists a. split; [now left|]. intros x [->|[]]. apply lt_irrefl.
  - destruct IH as (m & Hm & Hmin); [discriminate|].
    destruct (lt a m) eqn:Ham.
    + exists a. split; [now left|]. intros x [->|Hx]; [apply lt_irrefl|].
      destruct (lt x a) eqn:Hxa; [|reflexivity].
      rewrite <- (Hmin x Hx). symmetry. eapply lt_trans; eassumption.
    + exists m. split; [now right|]. intros x [->|Hx]; [assumption|now apply Hmin].
Qed.

End MinimalElement.

Module CoreFacts.
Import Core.

Lemma Qltb_lt (x y : Q) : Qltb x y = true <-> (x < y)%Q.
Proof.
  unfold Qltb. destruct (Qcompare_spec x y) as [H|H|H]; split; intro K;
    try reflexivity; try discriminate; try assumption; lra.
Qed.

Lemma Qltb_ge (x y : Q) : Qltb x y = false <-> (y <= x)%Q.
Proof.
  unfold Qltb. destruct (Qcompare_spec x y) as [H|H|H]; split; intro K;
    try reflexivity; try discriminate; lra.
Qed.

Lemma violation_of_nonneg (cs : list Q) : (0 <= violation_of cs)%Q.
Proof.
  induction cs as [|c cs IH]; simpl; [lra|].
  destruct (Qltb c 0) eqn:E; [|assumption].
  apply Qltb_lt in E. lra.
Qed.

Lemma lex_ltb_irrefl (a : list Q) : lex_ltb a a = false.
Proof.
  induction a as [|x a IH]; simpl; [reflexivity|].
  destruct (Qcompare_spec x x) as [H|H|H]; try assumption; try reflexivity; lra.
Qed.

Lemma lex_ltb_trans (a b c : list Q) :
  lex_ltb a b = true -> lex_ltb b c = true -> lex_ltb a c = true.
Proof.
  revert b c. induction a as [|x a IH]; intros [|y b] [|z c]; simpl;
    try discriminate; try reflexivity.
  destruct (Qcompare_spec x y) as [Hxy|Hxy|Hxy];
    destruct (Qcompare_spec y z) as [Hyz|Hyz|Hyz];
    destruct (Qcompare_spec x z) as [Hxz|Hxz|Hxz];
    try discriminate; try reflexivity; try lra.
  apply IH.
Qed.

Lemma pareto_lex (a b : list Q) : pareto_dominates a b = true -> lex_ltb a b = true.
Proof.
  unfold pareto_dominates. revert b.
  induction a as [|x a IH]; intros [|y b]; simpl; try discriminate.
  intros H. apply andb_prop in H as [Hle Hlt].
  apply andb_prop in Hle as [Hxy Hle]. apply Qle_bool_iff in Hxy.
  destruct (Qcompare_spec x y) as [E|E|E]; [|reflexivity|lra].
  apply IH. rewrite Hle. simpl.
  apply orb_prop in Hlt as [Hlt|Hlt]; [|assumption].
  apply Qltb_lt in Hlt. lra.
Qed.

(** Domination is contained in the key order. *)
Lemma dominates_key (a b : Solution) : dominates a b = true -> key_ltb a b = true.
Proof.
  unfold dominates, compare, key_ltb, key, violation. simpl.
  pose proof (violation_of_nonneg (constraints a)) as Ha.
  pose proof (violation_of_nonneg (constraints b)) as Hb.
  destruct (Qltb 0 (violation_of (constraints a)) || Qltb 0 (violation_of (constraints b))) eqn:V.
  - destruct (Qltb (violation_of (constraints a)) (violation_of (constraints b))) eqn:L.
    + intros _. apply Qltb_lt in L.
      destruct (Qcompare_spec (violation_of (constraints a)) (violation_of (constraints b)));
        try reflexivity; lra.
    + destruct (Qltb (violation_of (constraints b)) (violation_of (constraints a)));
        discriminate.
  - apply orb_false_elim in V as [Va Vb].
    apply Qltb_ge in Va. apply Qltb_ge in Vb.
    destruct (pareto_dominates (objectives a) (objectives b)) eqn:P.
    + intros _.
      destruct (Qcompare_spec (violation_of (constraints a)) (violation_of (constraints b)));
        try reflexivity; try lra.
      now apply pareto_lex.
    + destruct (pareto_dominates (objectives b) (objectives a)); discriminate.
Qed.

Lemma key_ltb_irrefl (a : Solution) : key_ltb a a = false.
Proof. apply lex_ltb_irrefl. Qed.

Lemma key_ltb_trans (a b c : Solution) :
  key_ltb a b = true -> key_ltb b c = true -> key_ltb a c = true.
Proof. apply lex_ltb_trans. Qed.

End CoreFacts.

(** ** Counting lemmas on lists of positions *)

Module CountingFacts.
Import Core Counting.

Lemma mem_In (p : nat) (l : list nat) : mem p l = true <-> In p l.
Proof.
  unfold mem. rewrite existsb_exists. split.
  - intros (x & Hx & E). apply Nat.eqb_eq in E. now subst.
  - intros H. exists p. split; [assumption|apply Nat.eqb_refl].
Qed.

Lemma mem_not_In (p : nat) (l : list nat) : mem p l = false <-> ~ In p l.
Proof.
  rewrite <- mem_In. destruct (mem p l); split; congruence.
Qed.

Lemma update_length (l : list nat) (i v : nat) : length (update l i v) = length l.
Proof.
  revert i. induction l as [|x l IH]; intros [|i]; simpl; auto.
Qed.

Lemma update_same (l : list nat) (i v : nat) :
  i < length l -> nth i (update l i v) 0 = v.
Proof.
  revert i. induction l as [|x l IH]; intros [|i]; simpl; intros H; try lia; auto.
  apply IH. lia.
Qed.

Lemma update_other (l : list nat) (i q v : nat) :
  q <> i -> nth q (update l i v) 0 = nth q l 0.
Proof.
  revert i q. induction l as [|x l IH]; intros [|i] [|q]; simpl; intros H;
    try reflexivity; try congruence.
  apply IH. congruence.
Qed.

Lemma occ_cons_same (q : nat) (l : list nat) : occ q (q :: l) = S (occ q l).
Proof. unfold occ. now apply count_occ_cons_eq. Qed.

Lemma occ_cons_other (q a : nat) (l : list nat) : a <> q -> occ q (a :: l) = occ q l.
Proof. unfold occ. intros. now apply count_occ_cons_neq. Qed.

Lemma occ_pos_In (q : nat) (l : list nat) : In q l <-> 0 < occ q l.
Proof. unfold occ. apply count_occ_In. Qed.

Lemma filter_length_perm (f : nat -> bool) (l l' : list nat) :
  Permutation l l' -> length (filter f l) = length (filter f l').
Proof.
  induction 1; simpl; try congruence.
  - destruct (f x); simpl; congruence.
  - destruct (f x), (f y); reflexivity.
Qed.

(** The effect of a run of decrements, when no count is decremented more
    often than its value. *)
Lemma fold_decrement (l : list nat) :
  forall (c nx : list nat),
    (forall q, In q l -> q < length c) ->
    (forall q, occ q l <= nth q c 0) ->
    length (fst (fold_left decrement l (c, nx))) = length c /\
    (forall q, nth q (fst (fold_left decrement l (c, nx))) 0 = nth q c 0 - occ q l) /\
    exists new,
      snd (fold_left decrement l (c, nx)) = nx ++ new /\
      NoDup new /\
      forall q, In q new <-> (In q l /\ nth q c 0 = occ q l).
Proof.
  induction l as [|a l IH]; intros c nx Hlt Hocc.
  - simpl. split; [reflexivity|]. split; [intros; unfold occ; simpl; lia|].
    exists []. rewrite app_nil_r. split; [reflexivity|]. split; [constructor|].
    intros q. simpl. tauto.
  - cbn [fold_left].
    set (c1 := update c a (pred (nth a c 0))).
    set (nx1 := if pred (nth a c 0) =? 0 then nx ++ [a] else nx).
    change (decrement (c, nx) a) with (c1, nx1).
    assert (Ha : a < length c) by (apply Hlt; now left).
    assert (Hca : S (occ a l) <= nth a c 0)
      by (specialize (Hocc a); now rewrite occ_cons_same in Hocc).
    assert (Hc1a : nth a c1 0 = pred (nth a c 0)) by (now apply update_same).
    assert (Hc1 : forall q, q <> a -> nth q c1 0 = nth q c 0)
      by (intros; now apply update_other).
    destruct (IH c1 nx1) as (Hlen & Hval & new & Hsnd & Hnd & Hin).
    { intros q Hq. unfold c1. rewrite update_length. apply Hlt. now right. }
    { intros q. destruct (Nat.eq_dec q a) as [->|Hne].
      - rewrite Hc1a. lia.
      - rewrite (Hc1 q Hne). specialize (Hocc q).
        rewrite occ_cons_other in Hocc by congruence. assumption. }
    split; [rewrite Hlen; apply update_length|].
    split.
    { intros q. rewrite Hval. destruct (Nat.eq_dec q a) as [->|Hne].
      - rewrite Hc1a, occ_cons_same. lia.
      - rewrite (Hc1 q Hne), occ_cons_other by congruence. reflexivity. }
    subst nx1.
    destruct (pred (nth a c 0) =? 0) eqn:Z.
    + apply Nat.eqb_eq in Z.
      assert (Hal : ~ In a l) by (rewrite occ_pos_In; lia).
      exists (a :: new). split; [rewrite Hsnd, <- app_assoc; reflexivity|].
      split.
      { constructor; [|assumption]. intros K. apply Hin in K. tauto. }
      intros q. cbn [In]. rewrite Hin. split.
      * intros [<-|[Hq Hv]].
        -- split; [now left|]. rewrite occ_cons_same. lia.
        -- assert (q <> a) by congruence.
           split; [now right|]. rewrite occ_cons_other by congruence.
           now rewrite <- Hc1.
      * intros [[->|Hq] Hv]; [now left|].
        destruct (Nat.eq_dec q a) as [->|Hne]; [now left|]. right.
        split; [assumption|]. rewrite (Hc1 q Hne).
        now rewrite occ_cons_other in Hv by congruence.
    + apply Nat.eqb_neq in Z.
      exists new. split; [assumption|]. split; [assumption|].
      intros q. rewrite Hin. split.
      * intros [Hq Hv]. split; [now right|].
        destruct (Nat.eq_dec q a) as [->|Hne].
        -- rewrite occ_cons_same. rewrite Hc1a in Hv. lia.
        -- rewrite occ_cons_other by congruence. now rewrite <- Hc1.
      * intros [Hq Hv]. destruct (Nat.eq_dec q a) as [->|Hne].
        -- rewrite occ_cons_same in Hv. rewrite Hc1a.
           split; [|lia]. apply occ_pos_In. lia.
        -- destruct Hq as [->|Hq]; [congruence|]. split; [assumption|].
           rewrite (Hc1 q Hne). now rewrite occ_cons_other in Hv by congruence.
Qed.

End CountingFacts.

(** ** The fast non-dominated sort covers the population *)

Module SortFacts.
Import Core Counting CountingFacts CoreFacts SortInvariant.

Section Sort.

Variable population : list Solution.

Local Abbreviation n := (length population).
Local Abbreviation dom := (dominates_at population).
Local Abbreviation key_lt_at := (SortInvariant.key_lt_at population).
Local Abbreviation undone := (SortInvariant.undone population).
Local Abbreviation remaining := (SortInvariant.remaining population).
Local Abbreviation Inv := (SortInvariant.Inv population).

Lemma key_lt_at_irrefl (p : nat) : key_lt_at p p = false.
Proof.
  unfold SortInvariant.key_lt_at. destruct (nth_error population p); [apply key_ltb_irrefl|reflexivity].
Qed.

Lemma key_lt_at_trans (p q r : nat) :
  key_lt_at p q = true -> key_lt_at q r = true -> key_lt_at p r = true.
Proof.
  unfold SortInvariant.key_lt_at.
  destruct (nth_error population p), (nth_error population q), (nth_error population r);
    try discriminate. apply key_ltb_trans.
Qed.

Lemma dom_key (p q : nat) : dom p q = true -> key_lt_at p q = true.
Proof.
  unfold dominates_at, SortInvariant.key_lt_at.
  destruct (nth_error population p), (nth_error population q); try discriminate.
  apply dominates_key.
Qed.

Lemma dom_bound (p q : nat) : dom p q = true -> p < n /\ q < n.
Proof.
  unfold dominates_at.
  destruct (nth_error population p) eqn:Ep; [|discriminate].
  destruct (nth_error population q) eqn:Eq; [|discriminate].
  intros _. split; apply nth_error_Some; congruence.
Qed.

Lemma dominated_set_In (p q : nat) :
  In q (dominated_set population p) <-> dom p q = true.
Proof.
  unfold dominated_set. rewrite filter_In, in_seq. split; [tauto|].
  intros H. split; [|assumption]. apply dom_bound in H. lia.
Qed.

Lemma occ_dominated_set (p q : nat) :
  occ q (dominated_set population p) = if dom p q then 1 else 0.
Proof.
  destruct (dom p q) eqn:E.
  - apply NoDup_count_occ'.
    + apply NoDup_filter, seq_NoDup.
    + now apply dominated_set_In.
  - apply count_occ_not_In. rewrite dominated_set_In. congruence.
Qed.

Lemma occ_flat_map (front : list nat) (q : nat) :
  occ q (flat_map (dominated_set population) front)
  = length (filter (fun p => dom p q) front).
Proof.
  induction front as [|a front IH]; [reflexivity|].
  cbn [flat_map filter]. unfold occ in *. rewrite count_occ_app, IH.
  fold (occ q (dominated_set population a)). rewrite occ_dominated_set.
  destruct (dom a q); reflexivity.
Qed.

Lemma dominators_out_of_range (l : list nat) (q : nat) :
  n <= q -> length (filter (fun p => dom p q) l) = 0.
Proof.
  intros H. induction l as [|a l IH]; [reflexivity|]. simpl.
  destruct (dom a q) eqn:E; [|assumption].
  apply dom_bound in E. lia.
Qed.

Lemma next_front_flat (front counts : list nat) :
  next_front population front counts
  = fold_left decrement (flat_map (dominated_set population) front) (counts, []).
Proof.
  unfold next_front. generalize (counts, @nil nat).
  induction front as [|a front IH]; intros st; [reflexivity|].
  cbn [fold_left flat_map]. rewrite fold_left_app. apply IH.
Qed.

Lemma undone_In (done : list nat) (x : nat) :
  In x (undone done) <-> x < n /\ ~ In x done.
Proof.
  unfold SortInvariant.undone. rewrite filter_In, in_seq, negb_true_iff, mem_not_In.
  intuition lia.
Qed.

Lemma NoDup_app_disjoint (l1 l2 : list nat) (x : nat) :
  NoDup (l1 ++ l2) -> In x l1 -> ~ In x l2.
Proof.
  induction l1 as [|a l1 IH]; simpl; [tauto|].
  intros H. inversion H as [|? ? Hnot Hnd]; subst.
  intros [->|Hx]; [|now apply IH].
  intros K. apply Hnot. apply in_or_app. now right.
Qed.

Lemma undone_split (done front : list nat) :
  NoDup (done ++ front) -> (forall x, In x front -> x < n) ->
  Permutation (undone done) (front ++ undone (done ++ front)).
Proof.
  intros Hnd Hb. apply NoDup_Permutation.
  - apply NoDup_filter, seq_NoDup.
  - apply NoDup_app.
    + eapply NoDup_app_remove_l; eassumption.
    + apply NoDup_filter, seq_NoDup.
    + intros a Ha K. apply undone_In in K. apply (proj2 K).
      apply in_or_app. now right.
  - intros x. rewrite in_app_iff, !undone_In, in_app_iff. split.
    + intros [Hx Hd]. destruct (in_dec Nat.eq_dec x front); tauto.
    + intros [Hx|[Hx Hd]]; [|tauto].
      split; [now apply Hb|]. intros K.
      now apply (NoDup_app_disjoint done front x Hnd K).
Qed.

Lemma remaining_split (done front : list nat) (q : nat) :
  NoDup (done ++ front) -> (forall x, In x front -> x < n) ->
  remaining done q
  = length (filter (fun p => dom p q) front) + remaining (done ++ front) q.
Proof.
  intros Hnd Hb. unfold SortInvariant.remaining.
  rewrite (filter_length_perm _ _ _ (undone_split done front Hnd Hb)).
  now rewrite filter_app, length_app.
Qed.

Lemma filter_all (l : list nat) : filter (fun _ => true) l = l.
Proof. induction l; simpl; congruence. Qed.

Lemma initial_counts_nth (q : nat) :
  q < n -> nth q (initial_counts population) 0 = domination_count population q.
Proof.
  intros H. unfold initial_counts.
  rewrite (nth_indep _ 0 (domination_count population 0))
    by (rewrite length_map, length_seq; exact H).
  rewrite map_nth, seq_nth by exact H. reflexivity.
Qed.

Lemma Inv_initial : Inv [] (first_front population) (initial_counts population).
Proof.
  constructor; simpl.
  - apply NoDup_filter, seq_NoDup.
  - intros x Hx. apply filter_In in Hx as [Hx _]. apply in_seq in Hx. lia.
  - unfold initial_counts. now rewrite length_map, length_seq.
  - intros q Hq. rewrite initial_counts_nth by assumption.
    unfold SortInvariant.remaining, SortInvariant.undone, domination_count. simpl.
    now rewrite filter_all.
  - intros q Hq. unfold first_front. rewrite filter_In, in_seq, Nat.eqb_eq.
    lia.
Qed.

Lemma Inv_step (done front counts : list nat) :
  Inv done front counts ->
  Inv (done ++ front)
      (snd (next_front population front counts))
      (fst (next_front population front counts)).
Proof.
  intros [Hnd Hb Hlen Hcount Hzero]. rewrite next_front_flat.
  set (l := flat_map (dominated_set population) front).
  assert (Hfront : forall x, In x front -> x < n)
    by (intros; apply Hb, in_or_app; now right).
  assert (Hl : forall q, In q l -> q < n).
  { intros q Hq. apply in_flat_map in Hq as (p & _ & Hq).
    apply dominated_set_In in Hq. now apply dom_bound in Hq. }
  assert (Hocc : forall q, occ q l <= nth q counts 0).
  { intros q. unfold l. rewrite occ_flat_map.
    destruct (Nat.lt_ge_cases q n) as [Hq|Hq].
    - rewrite (Hcount q Hq), (remaining_split done front q Hnd Hfront). lia.
    - rewrite dominators_out_of_range by assumption. lia. }
  destruct (fold_decrement l counts [])
    as (Hlen' & Hval & new & Hsnd & Hnew & Hin); [now rewrite Hlen| assumption |].
  simpl in Hsnd. rewrite Hsnd.
  assert (Hsep : forall a, In a (done ++ front) -> ~ In a new).
  { intros a Ha K. apply Hin in K as [Hal Hv].
    apply occ_pos_In in Hal. apply (Hzero a (Hb a Ha)) in Ha. lia. }
  constructor.
  - now apply NoDup_app.
  - intros x Hx. apply in_app_or in Hx as [Hx|Hx]; [now apply Hb|].
    apply Hl. now apply Hin.
  - congruence.
  - intros q Hq. rewrite Hval, (Hcount q Hq), (remaining_split done front q Hnd Hfront).
    unfold l. rewrite occ_flat_map. lia.
  - intros q Hq. rewrite Hval, in_app_iff, Hin, <- (Hzero q Hq).
    specialize (Hocc q). rewrite occ_pos_In. lia.
Qed.

(** When no front is left, every solution has been placed: among the
    solutions not yet placed, one that is least in the key order has no
    dominator left, so its count is 0 and it was placed. *)
Lemma Inv_all_done (done counts : list nat) :
  Inv done [] counts -> forall q, q < n -> In q done.
Proof.
  intros [Hnd Hb Hlen Hcount Hzero] q Hq.
  destruct (in_dec Nat.eq_dec q done) as [Hin|Hout]; [assumption|exfalso].
  destruct (exists_minimal nat (SortInvariant.key_lt_at population) key_lt_at_irrefl key_lt_at_trans (undone done))
    as (m & Hm & Hmin).
  { intros E. assert (K : In q (undone done)) by (apply undone_In; tauto).
    rewrite E in K. contradiction. }
  apply undone_In in Hm as [Hmn Hmd].
  assert (Hc : remaining done m <> 0).
  { rewrite <- (Hcount m Hmn), (Hzero m Hmn), app_nil_r. assumption. }
  unfold SortInvariant.remaining in Hc.
  destruct (filter (fun p => dom p m) (undone done)) as [|p rest] eqn:E;
    [contradiction|].
  assert (Hp : In p (filter (fun p => dom p m) (undone done)))
    by (rewrite E; now left).
  apply filter_In in Hp as [Hp Hdom].
  apply dom_key in Hdom. rewrite (Hmin p Hp) in Hdom. discriminate.
Qed.

Lemma fronts_from_perm (fuel : nat) :
  forall done front counts,
    Inv done front counts -> n <= fuel + length done ->
    Permutation (done ++ concat (fronts_from population fuel front counts)) (seq 0 n).
Proof.
  induction fuel as [|fuel IH]; intros done front counts HI Hfuel.
  - simpl. rewrite app_nil_r. apply NoDup_Permutation_bis.
    + eapply NoDup_app_remove_r. exact (inv_nodup _ _ _ _ HI).
    + rewrite length_seq. lia.
    + intros x Hx. apply in_seq. split; [lia|]. simpl.
      apply (inv_bound _ _ _ _ HI). apply in_or_app. now left.
  - destruct front as [|x front].
    + simpl. rewrite app_nil_r. apply NoDup_Permutation.
      * eapply NoDup_app_remove_r. exact (inv_nodup _ _ _ _ HI).
      * apply seq_NoDup.
      * intros y. rewrite in_seq. split.
        -- intros Hy. split; [lia|]. simpl.
           apply (inv_bound _ _ _ _ HI). apply in_or_app. now left.
        -- intros Hy. apply (Inv_all_done done counts HI). lia.
    + cbn [fronts_from].
      pose proof (Inv_step _ _ _ HI) as HI'.
      destruct (next_front population (x :: front) counts) as [counts' next].
      cbn [concat]. rewrite app_assoc. apply IH; [exact HI'|].
      rewrite length_app. simpl. lia.
Qed.

(** Partition completeness: every position occurs in exactly one front. *)
Lemma index_fronts_perm :
  Permutation (concat (index_fronts population)) (seq 0 n).
Proof.
  apply (fronts_from_perm n [] _ _ Inv_initial). simpl. lia.
Qed.

End Sort.

End SortFacts.

(** ** The selection returns exactly the target number of solutions *)

Module SelectionFacts.
Import Core SortFacts.

Lemma attach_ranks_length (population : list Solution) (fronts : list (list nat)) :
  forall k,
    (forall i, In i (concat fronts) -> i < length population) ->
    length (concat (attach_ranks population k fronts)) = length (concat fronts).
Proof.
  induction fronts as [|f fronts IH]; intros k Hb; [reflexivity|].
  cbn [attach_ranks concat]. rewrite !length_app. f_equal.
  - assert (Hf : forall i, In i f -> i < length population)
      by (intros i Hi; apply Hb; cbn [concat]; apply in_or_app; now left).
    clear -Hf. induction f as [|i f IHf]; [reflexivity|].
    cbn [flat_map]. rewrite length_app, IHf by (intros; apply Hf; now right).
    destruct (nth_error population i) eqn:E; [reflexivity|].
    apply nth_error_None in E. specialize (Hf i (or_introl eq_refl)). lia.
  - apply IH. intros i Hi. apply Hb. cbn [concat]. apply in_or_app. now right.
Qed.

(** The ranking places every solution of the population in some front. *)
Lemma compute_ranking_length (population : list Solution) :
  length (concat (compute_ranking population)) = length population.
Proof.
  unfold compute_ranking. pose proof (index_fronts_perm population) as HP.
  rewrite attach_ranks_length.
  - rewrite (Permutation_length HP). apply length_seq.
  - intros i Hi. apply (Permutation_in _ HP) in Hi. apply in_seq in Hi. lia.
Qed.

Lemma store_distances_length (front : list Solution) :
  forall dist, length (store_distances front dist) = length front.
Proof.
  induction front as [|s front IH]; intros [|d dist]; simpl; auto.
Qed.

Lemma compute_density_estimator_length (front : list Solution) :
  length (compute_density_estimator front) = length front.
Proof. apply store_distances_length. Qed.

Lemma insert_by_distance_length (x : Solution) (l : list Solution) :
  length (insert_by_distance x l) = S (length l).
Proof.
  induction l as [|y l IH]; [reflexivity|]. simpl.
  destruct (distance_geb (distance_of x) (distance_of y)); simpl; congruence.
Qed.

Lemma sort_by_distance_length (l : list Solution) :
  length (sort_by_distance l) = length l.
Proof.
  induction l as [|x l IH]; [reflexivity|]. simpl.
  now rewrite insert_by_distance_length, IH.
Qed.

Lemma accumulate_length (target : nat) (fronts : list (list Solution)) :
  forall result,
    length result <= target ->
    target <= length result + length (concat fronts) ->
    length (accumulate target fronts result) = target.
Proof.
  induction fronts as [|f fronts IH]; intros result Hle Hge.
  - simpl in *. lia.
  - cbn [accumulate]. cbn [concat] in Hge. rewrite length_app in Hge.
    destruct (length result + length f <=? target) eqn:E.
    + apply Nat.leb_le in E. apply IH; rewrite length_app; lia.
    + apply Nat.leb_gt in E.
      rewrite length_app, length_firstn, sort_by_distance_length,
        compute_density_estimator_length. lia.
Qed.

(** [select(population, targetSize)] has exactly [targetSize] members when
    [targetSize <= len(population)]. *)
Lemma execute_length (selection : RankingAndCrowdingDistanceSelection)
      (population : list Solution) :
  max_population_size selection <= length population ->
  length (execute selection population) = max_population_size selection.
Proof.
  intros H. unfold execute. apply accumulate_length; simpl; [lia|].
  now rewrite compute_ranking_length.
Qed.

End SelectionFacts.

(** ** [NSGAII.replacement] *)

(** C7.  For every parent population [P] and offspring population [O],
    [replacement(P, O)] is the result of the ranking and crowding distance
    selection with target size [population_size] (and the instance's
    dominance comparator) applied to the concatenation [P + O]; when
    [population_size <= len(P) + len(O)] the result has exactly
    [population_size] solutions. *)
Theorem replacement_selects_population_size
        (self : NSGAII.t) (P O : list Core.Solution) :
  NSGAII.replacement self P O
  = Core.execute (Core.mkRankingAndCrowdingDistanceSelection
                    (NSGAII.population_size self) (NSGAII.dominance_comparator self))
                 (P ++ O)
  /\ (NSGAII.population_size self <= length P + length O ->
      length (NSGAII.replacement self P O) = NSGAII.population_size self).
Proof.
  split; [reflexivity|]. intros H. unfold NSGAII.replacement.
  rewrite SelectionFacts.execute_length; simpl; [reflexivity|].
  now rewrite length_app.
Qed.

(** ** The coordinator loop of [DistributedNSGAII.run] *)

Module SchedulerFacts.
Import Core DistributedNSGAII Reachability.

Section Scheduler.

Variable World : Type.
Variable time_time : World -> float * World.

Abbreviation Frame := (DistributedNSGAII.Frame World).
Abbreviation for_body := (DistributedNSGAII.for_body time_time).
Abbreviation for_loop := (DistributedNSGAII.for_loop time_time).
Abbreviation while_loop := (DistributedNSGAII.while_loop time_time).
Abbreviation run := (DistributedNSGAII.run time_time).
Abbreviation run_prologue := (DistributedNSGAII.run_prologue time_time).
Abbreviation run_epilogue := (DistributedNSGAII.run_epilogue time_time).

Lemma same_static_refl (a : DistributedNSGAII.t World) : same_static a a.
Proof. constructor; reflexivity. Qed.

Lemma same_static_trans (a b c : DistributedNSGAII.t World) :
  same_static a b -> same_static b c -> same_static a c.
Proof. intros [] []; constructor; congruence. Qed.

(** *** The iterator *)

Lemma remove_nth_length (i : nat) (l : list (Future)) :
  i < length l -> length (remove_nth i l) = pred (length l).
Proof.
  revert i. induction l as [|x l IH]; intros [|i]; simpl; intros H; try lia.
  rewrite IH by lia. lia.
Qed.

Lemma next_completed_None (fr : Frame) :
  next_completed fr = None <-> task_pool fr = [].
Proof.
  unfold next_completed. destruct (task_pool fr) as [|f0 pool]; [tauto|].
  destruct (arrival _ _ _). split; discriminate.
Qed.

Lemma next_completed_Some (fr fr1 : Frame) (future : Future) :
  next_completed fr = Some (future, fr1) ->
  self fr1 = self fr /\
  population_to_evaluate fr1 = population_to_evaluate fr /\
  local_population fr1 = local_population fr /\
  In future (task_pool fr) /\
  S (length (task_pool fr1)) = length (task_pool fr).
Proof.
  unfold next_completed. destruct (task_pool fr) as [|f0 pool] eqn:E; [discriminate|].
  destruct (arrival _ _ _) as [k w1]. intros H. inversion H; subst; clear H. simpl.
  assert (Hk : k mod S (length pool) < S (length pool))
    by (apply Nat.mod_upper_bound; lia).
  repeat split; try reflexivity.
  - apply (nth_In (f0 :: pool)). exact Hk.
  - rewrite (remove_nth_length _ (f0 :: pool)) by exact Hk. reflexivity.
Qed.

(** *** One iteration of the [for] loop *)

Lemma end_of_iteration_spec (fr : Frame) :
  exists self2,
    end_of_iteration fr
    = Continue (mkFrame self2 (population_to_evaluate fr) (task_pool fr)
                        (local_population fr) (world fr)) /\
    same_static (self fr) self2 /\
    evaluations self2 = evaluations (self fr) + 1 /\
    client self2 = client (self fr).
Proof.
  unfold end_of_iteration.
  destruct (_ =? 0); eexists; (split; [reflexivity|]);
    (split; [constructor; reflexivity|]); split; reflexivity.
Qed.

(** An iteration that stays in the loop. *)
Lemma for_body_Continue (future : Future) (fr fr' : Frame) :
  for_body future fr = Continue fr' ->
  same_static (self fr) (self fr') /\
  evaluations (self fr') = evaluations (self fr) + 2 /\
  population_to_evaluate fr' = population_to_evaluate fr /\
  cancelled (client (self fr')) = cancelled (client (self fr)) /\
  (exists s,
      let new_task := mkFuture (length (submitted (client (self fr)))) s in
      task_pool fr' = task_pool fr ++ [new_task] /\
      submitted (client (self fr')) = submitted (client (self fr)) ++ [new_task]) /\
  ((length (local_population fr) < population_size (self fr) /\
    local_population fr' = local_population fr ++ [result (self fr) future])
   \/
   (population_size (self fr) <= length (local_population fr) /\
    evaluations (self fr) + 1 < max_evaluations (self fr) /\
    local_population fr'
    = execute (mkRankingAndCrowdingDistanceSelection (population_size (self fr))
                                                     mkDominanceComparator)
              (local_population fr ++ [result (self fr) future]))).
Proof.
  unfold DistributedNSGAII.for_body, submit.
  cbn [population_size evaluations set_evaluations max_evaluations problem client
       selection_operator crossover_operator mutation_operator].
  destruct (length (local_population fr) <? population_size (self fr)) eqn:Efull.
  - apply Nat.ltb_lt in Efull.
    destruct (create_solution _ _) as [fresh w1].
    match goal with |- end_of_iteration ?f = _ -> _ =>
      destruct (end_of_iteration_spec f) as (self2 & -> & Hs & He & Hc) end.
    intros H. inversion H; subst; clear H.
    cbn in *. destruct Hs. rewrite Hc.
    split; [constructor; assumption|]. split; [lia|].
    split; [reflexivity|]. split; [reflexivity|].
    split; [exists fresh; split; reflexivity|]. left. split; auto.
  - apply Nat.ltb_ge in Efull.
    destruct (evaluations (self fr) + 1 <? max_evaluations (self fr)) eqn:Ebudget.
    + apply Nat.ltb_lt in Ebudget.
      destruct (selection_execute _ _ _) as [parent1 w1].
      destruct (selection_execute _ _ _) as [parent2 w2].
      destruct (crossover_execute _ _ _) as [[|offspring0 rest] w3]; [discriminate|].
      destruct (mutation_execute _ _ _) as [solution_to_evaluate w4].
      match goal with |- end_of_iteration ?f = _ -> _ =>
        destruct (end_of_iteration_spec f) as (self2 & -> & Hs & He & Hc) end.
      intros H. inversion H; subst; clear H.
      cbn in *. destruct Hs. rewrite Hc.
      split; [constructor; assumption|]. split; [lia|].
      split; [reflexivity|]. split; [reflexivity|].
      split; [exists solution_to_evaluate; split; reflexivity|]. right. auto.
    + destruct (time_time _). discriminate.
Qed.

(** The iteration that leaves the loop. *)
Lemma for_body_Break (future : Future) (fr fr' : Frame) :
  for_body future fr = Break fr' ->
  same_static (self fr) (self fr') /\
  evaluations (self fr') = evaluations (self fr) + 1 /\
  population_size (self fr) <= length (local_population fr) /\
  max_evaluations (self fr) <= evaluations (self fr) + 1 /\
  local_population fr' = local_population fr /\
  population_to_evaluate fr' = population_to_evaluate fr /\
  task_pool fr' = task_pool fr /\
  submitted (client (self fr')) = submitted (client (self fr)) /\
  cancelled (client (self fr')) = cancelled (client (self fr)) ++ task_pool fr /\
  observable (self fr') = observable (self fr).
Proof.
  unfold DistributedNSGAII.for_body, submit. cbn [population_size evaluations
    set_evaluations max_evaluations problem client selection_operator crossover_operator
    mutation_operator].
  destruct (length (local_population fr) <? population_size (self fr)) eqn:Efull.
  - destruct (create_solution _ _) as [fresh w1].
    match goal with |- end_of_iteration ?f = _ -> _ =>
      destruct (end_of_iteration_spec f) as (self2 & -> & _) end. discriminate.
  - apply Nat.ltb_ge in Efull.
    destruct (evaluations (self fr) + 1 <? max_evaluations (self fr)) eqn:Ebudget.
    + destruct (selection_execute _ _ _) as [parent1 w1].
      destruct (selection_execute _ _ _) as [parent2 w2].
      destruct (crossover_execute _ _ _) as [[|offspring0 rest] w3]; [discriminate|].
      destruct (mutation_execute _ _ _) as [solution_to_evaluate w4].
      match goal with |- end_of_iteration ?f = _ -> _ =>
        destruct (end_of_iteration_spec f) as (self2 & -> & _) end. discriminate.
    + apply Nat.ltb_ge in Ebudget. destruct (time_time _) as [now w1].
      intros H. inversion H; subst; clear H. cbn.
      repeat split; auto.
Qed.

(** While the population is not full the completion is accepted and a
    fresh random solution is submitted, whatever the counter says. *)
Lemma for_body_filling (future : Future) (fr : Frame) :
  length (local_population fr) < population_size (self fr) ->
  exists fr',
    for_body future fr = Continue fr' /\
    local_population fr' = local_population fr ++ [result (self fr) future] /\
    task_pool fr'
    = task_pool fr ++ [mkFuture (length (submitted (client (self fr))))
                                (fst (create_solution (problem (self fr)) (world fr)))].
Proof.
  intros Hlt. apply Nat.ltb_lt in Hlt.
  unfold DistributedNSGAII.for_body, submit. cbn [population_size evaluations
    set_evaluations max_evaluations problem client].
  rewrite Hlt. destruct (create_solution _ _) as [fresh w1].
  match goal with |- exists _, end_of_iteration ?f = _ /\ _ =>
    destruct (end_of_iteration_spec f) as (self2 & -> & _) end.
  eexists. split; [reflexivity|]. split; reflexivity.
Qed.



(** *** The prologue *)

Lemma create_solutions_length (p : Problem World) (k : nat) (w : World) :
  length (fst (create_solutions p k w)) = k.
Proof.
  revert w. induction k as [|k IH]; intros w; [reflexivity|]. simpl.
  destruct (create_solution p w) as [s w1]. specialize (IH w1).
  destruct (create_solutions p k w1) as [rest w2]. simpl in *. congruence.
Qed.

Lemma submit_all_spec (solutions : list Solution) :
  forall c : Client World,
    length (fst (submit_all c solutions)) = length solutions /\
    arrival (snd (submit_all c solutions)) = arrival c /\
    cancelled (snd (submit_all c solutions)) = cancelled c /\
    length (submitted (snd (submit_all c solutions)))
    = length (submitted c) + length solutions.
Proof.
  induction solutions as [|s solutions IH]; intros c.
  - simpl. repeat split; lia.
  - cbn [submit_all]. unfold submit.
    match goal with |- context [submit_all ?c1 solutions] =>
      destruct (IH c1) as (H1 & H2 & H3 & H4); destruct (submit_all c1 solutions) end.
    cbn in *. rewrite length_app in H4. cbn in H4. repeat split; try congruence; lia.
Qed.

Lemma run_prologue_spec (self0 : DistributedNSGAII.t World) (w : World) :
  same_static self0 (self (run_prologue self0 w)) /\
  evaluations (self (run_prologue self0 w)) = evaluations self0 /\
  local_population (run_prologue self0 w) = [] /\
  length (task_pool (run_prologue self0 w)) = number_of_cores self0 /\
  length (submitted (client (self (run_prologue self0 w))))
  = length (submitted (client self0)) + number_of_cores self0 /\
  cancelled (client (self (run_prologue self0 w))) = cancelled (client self0).
Proof.
  unfold DistributedNSGAII.run_prologue, create_initial_population.
  pose proof (create_solutions_length (problem self0) (number_of_cores self0) w) as Hn.
  destruct (create_solutions _ _ _) as [initial w1].
  destruct (time_time w1) as [now w2].
  cbn [client set_start_computing_time].
  destruct (submit_all_spec initial (client self0)) as (H1 & H2 & H3 & H4).
  destruct (submit_all (client self0) initial) as [futures client1].
  cbn in *. repeat split; auto; congruence.
Qed.

(** *** Frames at the head of the loop *)


(** *** The two loops *)

Lemma for_loop_Exhausted (fuel : nat) :
  forall fr fr' : Frame,
    for_loop fuel fr = Exhausted fr' -> fr' = fr /\ task_pool fr = [].
Proof.
  induction fuel as [|fuel IH]; intros fr fr' H; [discriminate|].
  cbn [DistributedNSGAII.for_loop] in H.
  destruct (next_completed fr) as [[future fr1]|] eqn:En.
  - destruct (for_body future fr1) as [fr2| |] eqn:Eb; try discriminate.
    apply IH in H as [_ Hnil].
    apply for_body_Continue in Eb as (_ & _ & _ & _ & (s & Ht & _) & _).
    rewrite Ht in Hnil. now destruct (task_pool fr1).
  - inversion H; subst. split; [reflexivity|]. now apply next_completed_None.
Qed.

Lemma for_loop_Broke (fuel : nat) :
  forall fr fr' : Frame,
    for_loop fuel fr = Broke fr' ->
    same_static (self fr) (self fr') /\
    population_size (self fr') <= length (local_population fr') /\
    max_evaluations (self fr') <= evaluations (self fr').
Proof.
  induction fuel as [|fuel IH]; intros fr fr' H; [discriminate|].
  cbn [DistributedNSGAII.for_loop] in H.
  destruct (next_completed fr) as [[future fr1]|] eqn:En; [|discriminate].
  apply next_completed_Some in En as (Hs & _).
  destruct (for_body future fr1) as [fr2|fr2|] eqn:Eb; try discriminate.
  - apply for_body_Continue in Eb as (Hst & _).
    apply IH in H as (Hst' & H'). rewrite Hs in Hst.
    split; [eapply same_static_trans; eassumption|exact H'].
  - inversion H; subst; clear H.
    apply for_body_Break in Eb as (Hst & He & Hfull & Hmax & Hl & _).
    rewrite Hs in Hst. split; [exact Hst|].
    rewrite (ss_size _ _ Hst), (ss_max _ _ Hst), Hl, He, <- Hs. split; assumption.
Qed.

Lemma while_loop_Returned (fuel : nat) :
  forall fr fr' : Frame,
    while_loop fuel fr = Returned fr' ->
    same_static (self fr) (self fr') /\
    max_evaluations (self fr') <= evaluations (self fr') /\
    (evaluations (self fr) < max_evaluations (self fr) ->
     population_size (self fr') <= length (local_population fr')) /\
    (max_evaluations (self fr) <= evaluations (self fr) -> fr' = fr).
Proof.
  induction fuel as [|fuel IH]; intros fr fr' H; [discriminate|].
  cbn [DistributedNSGAII.while_loop] in H.
  destruct (evaluations (self fr) <? max_evaluations (self fr)) eqn:E.
  - apply Nat.ltb_lt in E.
    destruct (for_loop fuel fr) as [fr1|fr1|e|] eqn:Ef; try discriminate.
    + apply for_loop_Exhausted in Ef as [-> _].
      apply IH in H as (H1 & H2 & H3 & H4).
      split; [exact H1|]. split; [exact H2|]. split; [exact H3|exact H4].
    + apply for_loop_Broke in Ef as (Hst & Hfull & Hmax).
      apply IH in H as (H1 & H2 & H3 & H4).
      specialize (H4 Hmax). subst fr'.
      split; [exact Hst|]. split; [exact Hmax|]. split; [intros _; exact Hfull|lia].
  - apply Nat.ltb_ge in E. inversion H; subst.
    split; [apply same_static_refl|]. split; [exact E|]. split; [lia|reflexivity].
Qed.

Lemma run_Returned (fuel : nat) (self0 s : DistributedNSGAII.t World) (w w' : World) :
  run fuel self0 w = Returned (s, w') ->
  exists fr,
    while_loop fuel (run_prologue self0 w) = Returned fr /\
    population s = Some (local_population fr) /\
    evaluations s = evaluations (self fr) /\
    population_size s = population_size (self fr) /\
    max_evaluations s = max_evaluations (self fr).
Proof.
  unfold DistributedNSGAII.run.
  destruct (while_loop fuel (run_prologue self0 w)) as [fr| |]; try discriminate.
  unfold DistributedNSGAII.run_epilogue. destruct (time_time (world fr)) as [now w1].
  intros H. inversion H; subst; clear H. exists fr. repeat split; reflexivity.
Qed.

(** *** What the loops guarantee *)


(** C3, as the code has it.  A completion that is accepted (filling or
    steady-state step) advances the counter by exactly two and submits
    exactly one new evaluation; the completion that finds the budget
    exhausted advances the counter by one only and submits nothing. *)
Theorem counter_advances_by_two_unless_break
        (fr fr1 fr2 : Frame) (future : Future) :
  next_completed fr = Some (future, fr1) ->
  (for_body future fr1 = Continue fr2 ->
   evaluations (self fr2) = evaluations (self fr) + 2 /\
   length (submitted (client (self fr2))) = S (length (submitted (client (self fr)))))
  /\
  (for_body future fr1 = Break fr2 ->
   evaluations (self fr2) = evaluations (self fr) + 1 /\
   submitted (client (self fr2)) = submitted (client (self fr))).
Proof.
  intros Hn. apply next_completed_Some in Hn as (Hs & _). rewrite <- Hs. split.
  - intros H. apply for_body_Continue in H as (_ & He & _ & _ & (s & _ & Hsub) & _).
    split; [exact He|]. rewrite Hsub, length_app. simpl. lia.
  - intros H. apply for_body_Break in H as (_ & He & _ & _ & _ & _ & _ & Hsub & _).
    split; assumption.
Qed.


(** C9, as the code has it.  While the population is not full, a
    completion is accepted and a fresh random solution is submitted
    whatever the value of the counter; and a run that enters its main loop
    (the counter is below [max_evaluations] when [run] is called) returns
    only with at least [population_size] solutions in its population and
    the counter at or above the budget. *)
Theorem filling_ignores_the_budget
        (fuel : nat) (self0 : DistributedNSGAII.t World) (w0 : World) :
  (forall (future : Future) (fr : Frame),
      length (local_population fr) < population_size (self fr) ->
      exists fr',
        for_body future fr = Continue fr' /\
        local_population fr' = local_population fr ++ [result (self fr) future] /\
        task_pool fr'
        = task_pool fr ++ [mkFuture (length (submitted (client (self fr))))
                                    (fst (create_solution (problem (self fr)) (world fr)))])
  /\
  (evaluations self0 < max_evaluations self0 ->
   match run fuel self0 w0 with
   | Returned (s, _) =>
       exists l, get_result s = Some l /\
                 population_size self0 <= length l /\
                 max_evaluations self0 <= evaluations s
   | _ => True
   end).
Proof.
  split; [apply for_body_filling|]. intros Henter.
  destruct (run fuel self0 w0) as [[s w']| |] eqn:E; try exact I.
  apply run_Returned in E as (fr & Hw & Hp & He & _).
  apply while_loop_Returned in Hw as (Hst & Hmax & Hfull & _).
  destruct (run_prologue_spec self0 w0) as (Hst0 & He0 & _).
  exists (local_population fr). split; [exact Hp|].
  rewrite <- (ss_size _ _ Hst0), <- (ss_size _ _ Hst).
  rewrite <- (ss_max _ _ Hst0), <- (ss_max _ _ Hst), He.
  split; [|exact Hmax]. apply Hfull.
  rewrite He0, (ss_max _ _ Hst0). exact Henter.
Qed.

Local Abbreviation during_run := (Reachability.during_run time_time).

Lemma during_run_static (self0 : DistributedNSGAII.t World) (w0 : World) (fr : Frame) :
  during_run self0 w0 fr -> same_static self0 (self fr).
Proof.
  induction 1 as [|fr fr1 future _ IH Hn|fr fr2 future _ IH Hb|fr fr2 future _ IH Hb].
  - apply run_prologue_spec.
  - apply next_completed_Some in Hn as (-> & _). exact IH.
  - apply for_body_Continue in Hb as (Hst & _). eapply same_static_trans; eassumption.
  - apply for_body_Break in Hb as (Hst & _). eapply same_static_trans; eassumption.
Qed.

(** C10.  For an instance built by the constructor, [get_result()] is
    [None] before [run] is called and at every point of [run] before its
    last statement; a [run] that returns has assigned the list. *)
Theorem get_result_is_None_until_run_ends
        (population_size : nat) (problem : Problem World) (max_evaluations : nat)
        (mutation : Mutation World) (crossover : Crossover World)
        (selection : Selection World) (number_of_cores : nat) (client : Client World)
        (default_observable : Observable) (w0 : World) :
  let self0 := init population_size problem max_evaluations mutation crossover
                    selection number_of_cores client default_observable in
  get_result self0 = None /\
  (forall fr, during_run self0 w0 fr -> get_result (self fr) = None) /\
  (forall fuel s w', run fuel self0 w0 = Returned (s, w') ->
                     exists l, get_result s = Some l).
Proof.
  intros self0. split; [reflexivity|]. split.
  - intros fr H. apply during_run_static in H. unfold get_result.
    now rewrite (ss_population _ _ H).
  - intros fuel s w' H. apply run_Returned in H as (fr & _ & Hp & _).
    exists (local_population fr). exact Hp.
Qed.

(** *** Scenario D *)



End Scheduler.

End SchedulerFacts.

(** ** Runs in the concrete environment *)

Module Runs.
Import Core DistributedNSGAII.

(** C1, evaluated on a run with [population_size = 2], [number_of_cores = 2]
    and [max_evaluations = 12].  After two completions the population is
    full; in the steady-state step that follows, the selection operator is
    asked twice to choose from [population_to_evaluate], the two solutions
    created before the loop, which were never evaluated and never change,
    and not from the population that the replacement has just produced.
    One offspring is submitted. *)
Theorem parents_are_selected_from_the_initial_solutions :
  let fr := frame_after 2 (scenario_start 2 12 2) in
  let fr2 := iteration fr in
  length (local_population fr) = population_size (self fr) /\
  for_body Scenario.time_time (fst (consume fr)) (snd (consume fr)) = Continue fr2 /\
  Scenario.selection_log (world fr) = [] /\
  Scenario.selection_log (world fr2)
  = [population_to_evaluate fr; population_to_evaluate fr] /\
  population_to_evaluate fr
  = [mkSolution [0%Q] [] [] None None; mkSolution [1%Q] [] [] None None] /\
  local_population fr2
  = [mkSolution [0%Q] [0%Q; 0%Q] [] (Some 0) (Some Infinity);
     mkSolution [3%Q] [3%Q; (-3)%Q] [] (Some 0) (Some Infinity)] /\
  length (submitted (client (self fr2))) = S (length (submitted (client (self fr)))).
Proof. vm_compute. repeat split; reflexivity. Qed.

(** C6, evaluated on the same run.  When the counter reaches 10 the one
    registered observer is notified once; the event carries the counter,
    but its computing time is the attribute [total_computing_time], still
    0 although the clock has advanced since [start_computing_time], and
    its solutions are [population_to_evaluate], not the population. *)
Theorem progress_event_carries_stale_time_and_initial_solutions :
  let fr := frame_after 5 (scenario_start 2 12 2) in
  evaluations (self fr) = 10 /\
  delivered (observable (self fr))
  = [(7, mkEvent 10 0%float (population_to_evaluate fr) None)] /\
  population_to_evaluate fr
  = [mkSolution [0%Q] [] [] None None; mkSolution [1%Q] [] [] None None] /\
  map variables (local_population fr) = [[0%Q]; [4%Q]] /\
  start_computing_time (self fr) = 2%float /\
  fst (Scenario.time_time (world fr)) = 17%float.
Proof. vm_compute. repeat split; reflexivity. Qed.

(** Counterexample to C3 as stated: the completion that finds the budget
    exhausted is consumed and counted once, not twice.  Here
    [population_size = 1], [number_of_cores = 1] and [max_evaluations = 2];
    the second completion is taken from the pool with the counter at 2 and
    breaks the loop with the counter at 3. *)
Lemma terminal_completion_counts_once :
  let fr := frame_after 1 (scenario_start 1 2 1) in
  next_completed fr = Some (consume fr) /\
  for_body Scenario.time_time (fst (consume fr)) (snd (consume fr))
  = Break (iteration fr) /\
  evaluations (self fr) = 2 /\
  evaluations (self (iteration fr)) = 3.
Proof. vm_compute. repeat split; reflexivity. Qed.

(** Counterexample to C9 as stated: with [max_evaluations = 0] the main loop is never
    entered and [run] ends at once with an empty population, although
    [population_size = 1]. *)
Lemma run_with_no_budget_ends_with_empty_population :
  exists s w',
    run Scenario.time_time 1 (Scenario.algorithm 1 0 1) Scenario.w0 = Returned (s, w') /\
    population_size s = 1 /\
    get_result s = Some [].
Proof. eexists. eexists. vm_compute. repeat split; reflexivity. Qed.

End Runs.

(** ** The theorems at concrete inputs *)

Module Instances.
Import Core DistributedNSGAII.

Lemma replacement_of_three_keeps_two :
  length (NSGAII.replacement
            (NSGAII.mk 2 1 2 mkDominanceComparator [])
            [mkSolution [] [1%Q; 4%Q] [] None None; mkSolution [] [2%Q; 3%Q] [] None None]
            [mkSolution [] [5%Q; 5%Q] [] None None])
  = 2.
Proof.
  apply (proj2 (replacement_selects_population_size
                  (NSGAII.mk 2 1 2 mkDominanceComparator [])
                  [mkSolution [] [1%Q; 4%Q] [] None None;
                   mkSolution [] [2%Q; 3%Q] [] None None]
                  [mkSolution [] [5%Q; 5%Q] [] None None])).
  simpl. lia.
Defined.


Lemma third_completion_counts_twice :
  let fr := frame_after 2 (scenario_start 2 12 2) in
  (for_body Scenario.time_time (fst (consume fr)) (snd (consume fr))
   = Continue (iteration fr) ->
   evaluations (self (iteration fr)) = evaluations (self fr) + 2 /\
   length (submitted (client (self (iteration fr))))
   = S (length (submitted (client (self fr)))))
  /\
  (for_body Scenario.time_time (fst (consume fr)) (snd (consume fr))
   = Break (iteration fr) ->
   evaluations (self (iteration fr)) = evaluations (self fr) + 1 /\
   submitted (client (self (iteration fr))) = submitted (client (self fr))).
Proof.
  intros fr.
  apply (SchedulerFacts.counter_advances_by_two_unless_break
           Scenario.World Scenario.time_time fr (snd (consume fr)) (iteration fr)
           (fst (consume fr))).
  vm_compute. reflexivity.
Defined.



Lemma budget_of_five_is_overrun_while_filling :
  let self0 := Scenario.algorithm 10 5 4 in
  let fr := frame_after 3 (scenario_start 10 5 4) in
  (max_evaluations (self fr) < evaluations (self fr) /\
   exists fr',
     for_body Scenario.time_time (fst (consume fr)) (snd (consume fr)) = Continue fr' /\
     local_population fr'
     = local_population (snd (consume fr))
       ++ [result (self (snd (consume fr))) (fst (consume fr))] /\
     task_pool fr'
     = task_pool (snd (consume fr))
       ++ [mkFuture (length (submitted (client (self (snd (consume fr))))))
                    (fst (create_solution (problem (self (snd (consume fr))))
                                          (world (snd (consume fr)))))])
  /\
  match run Scenario.time_time 30 self0 Scenario.w0 with
  | Returned (s, _) =>
      exists l, get_result s = Some l /\
                population_size self0 <= length l /\
                max_evaluations self0 <= evaluations s
  | _ => True
  end.
Proof.
  intros self0 fr.
  pose proof (SchedulerFacts.filling_ignores_the_budget
                Scenario.World Scenario.time_time 30 self0 Scenario.w0) as [Hfill Hrun].
  split.
  - split; [vm_compute; lia|].
    apply (Hfill (fst (consume fr)) (snd (consume fr))). vm_compute. lia.
  - apply Hrun. vm_compute. lia.
Defined.

Lemma get_result_after_the_prologue :
  get_result (self (scenario_start 10 50 4)) = None.
Proof.
  apply (proj1 (proj2 (SchedulerFacts.get_result_is_None_until_run_ends
                         Scenario.World Scenario.time_time 10 Scenario.problem 50
                         Scenario.mutation Scenario.crossover Scenario.selection 4
                         Scenario.client Scenario.default_observable Scenario.w0))).
  apply Reachability.dr_prologue.
Defined.

End Instances.

(** ** [DTLZ1.evaluate] *)

(** C8, on [DTLZ1]: a call of [evaluate] that raises nothing fills the
    objectives of its argument but returns [None], not the solution.  So
    it is for [DTLZ1(number_of_variables=3, number_of_objectives=2)] and
    the solution with variables [0.5, 0.5, 0.5], whatever [cos] computes. *)
Theorem DTLZ1_evaluate_returns_None (cos : float -> float) :
  (forall (self : DTLZ1.t) (solution : DTLZ1.FloatSolution),
      match DTLZ1.evaluate cos self solution with
      | DTLZ1.Returns v _ => v = DTLZ1.NoneValue
      | DTLZ1.Raises _ => True
      end)
  /\
  exists objectives,
    DTLZ1.evaluate cos (DTLZ1.init 3 2)
                   (DTLZ1.mkFloatSolution [0.5; 0.5; 0.5]%float [0; 0]%float)
    = DTLZ1.Returns DTLZ1.NoneValue
                    (DTLZ1.mkFloatSolution [0.5; 0.5; 0.5]%float objectives)
    /\ length objectives = 2.
Proof.
  split.
  - intros self solution. unfold DTLZ1.evaluate.
    repeat match goal with
           | |- context [match ?x with Some _ => _ | None => _ end] => destruct x
           end; auto.
  - eexists. split; [vm_compute; reflexivity|reflexivity].
Qed.

(** ** [DTLZ1.evaluate]: what it computes and when it raises *)

Module DTLZ1Facts.
Import DTLZ1 DTLZ1Formula.

(** *** Python indexing at indices that are not negative *)










(** *** [range] over natural numbers *)





(** *** The three loops *)






Section Loops.

Variable cos : float -> float.






End Loops.



End DTLZ1Facts.

Module DTLZ1Instances.
Import DTLZ1 DTLZ1Formula.

Local Open Scope float_scope.



End DTLZ1Instances.

(** ** More on the coordinator loop *)

Module SchedulerMore.
Import Core DistributedNSGAII Reachability Trace SchedulerFacts.

Section Scheduler.

Variable World : Type.
Variable time_time : World -> float * World.

Local Abbreviation Frame := (DistributedNSGAII.Frame World).
Local Abbreviation for_body := (DistributedNSGAII.for_body time_time).
Local Abbreviation for_loop := (DistributedNSGAII.for_loop time_time).
Local Abbreviation while_loop := (DistributedNSGAII.while_loop time_time).
Local Abbreviation run := (DistributedNSGAII.run time_time).
Local Abbreviation run_prologue := (DistributedNSGAII.run_prologue time_time).
Local Abbreviation run_epilogue := (DistributedNSGAII.run_epilogue time_time).

(** *** The prologue *)

Lemma submit_all_arguments (solutions : list Solution) :
  forall c : Client World,
    map argument (fst (submit_all c solutions)) = solutions /\
    map future_id (fst (submit_all c solutions))
    = seq (length (submitted c)) (length solutions) /\
    submitted (snd (submit_all c solutions))
    = submitted c ++ fst (submit_all c solutions).
Proof.
  induction solutions as [|s solutions IH]; intros c.
  - cbn. now rewrite app_nil_r.
  - cbn [submit_all]. unfold submit.
    match goal with |- context [submit_all ?c1 solutions] =>
      destruct (IH c1) as (H1 & H2 & H3); destruct (submit_all c1 solutions) end.
    cbn in *. rewrite length_app in H2. cbn in H2.
    replace (length (submitted c) + 1) with (S (length (submitted c))) in H2 by lia.
    rewrite H1, H2, H3, <- app_assoc. repeat split; reflexivity.
Qed.

(** X3.  [run] starts from [number_of_cores] solutions, not from
    [population_size]: the prologue creates [number_of_cores] random
    solutions, in the order of the draws, and submits one task for each,
    in that order and with consecutive task numbers; the population is
    empty and the counter untouched. *)
Theorem prologue_submits_number_of_cores_solutions
        (self0 : DistributedNSGAII.t World) (w0 : World) :
  let fr := run_prologue self0 w0 in
  population_to_evaluate fr = fst (create_initial_population self0 w0) /\
  length (population_to_evaluate fr) = number_of_cores self0 /\
  map argument (task_pool fr) = population_to_evaluate fr /\
  map future_id (task_pool fr)
  = seq (length (submitted (client self0))) (number_of_cores self0) /\
  submitted (client (self fr)) = submitted (client self0) ++ task_pool fr /\
  local_population fr = [] /\
  evaluations (self fr) = evaluations self0.
Proof.
  unfold DistributedNSGAII.run_prologue, create_initial_population.
  pose proof (create_solutions_length World (problem self0) (number_of_cores self0) w0) as Hn.
  destruct (create_solutions _ _ _) as [initial w1].
  destruct (time_time w1) as [now w2].
  cbn [client set_start_computing_time].
  destruct (submit_all_arguments initial (client self0)) as (H1 & H2 & H3).
  destruct (submit_all (client self0) initial) as [futures client1].
  cbn in *. rewrite H2, Hn. repeat split; auto.
Qed.

(** *** No worker, no return *)

Lemma while_loop_spins (fuel : nat) (fr : Frame) :
  task_pool fr = [] ->
  evaluations (self fr) < max_evaluations (self fr) ->
  while_loop fuel fr = OutOfFuel.
Proof.
  intros Hpool Hlt. induction fuel as [|fuel IH]; [reflexivity|].
  cbn [DistributedNSGAII.while_loop].
  replace (evaluations (self fr) <? max_evaluations (self fr)) with true
    by (symmetry; now apply Nat.ltb_lt).
  destruct fuel as [|fuel]; [reflexivity|].
  cbn [DistributedNSGAII.for_loop].
  replace (next_completed fr) with (@None (Future * Frame));
    [exact IH|symmetry; now apply next_completed_None].
Qed.

(** X4.  With [number_of_cores = 0] and budget left, [run] never
    returns: no task is submitted, the completion loop ends at once each
    time and the outer loop, whose condition never changes, goes on for
    ever. *)
Theorem run_without_cores_never_returns
        (self0 : DistributedNSGAII.t World) (w0 : World) (fuel : nat) :
  number_of_cores self0 = 0 ->
  evaluations self0 < max_evaluations self0 ->
  run fuel self0 w0 = OutOfFuel.
Proof.
  intros Hcores Hlt. unfold DistributedNSGAII.run.
  destruct (run_prologue_spec World time_time self0 w0)
    as (Hst & He & _ & Hp & _).
  rewrite while_loop_spins; [reflexivity| |].
  - rewrite Hcores in Hp. now destruct (task_pool (run_prologue self0 w0)).
  - rewrite He, (ss_max _ _ Hst). exact Hlt.
Qed.

(** *** Calling [run] again *)

Lemma run_epilogue_spec (fr : Frame) :
  population (fst (run_epilogue fr)) = Some (local_population fr) /\
  evaluations (fst (run_epilogue fr)) = evaluations (self fr) /\
  client (fst (run_epilogue fr)) = client (self fr) /\
  max_evaluations (fst (run_epilogue fr)) = max_evaluations (self fr) /\
  number_of_cores (fst (run_epilogue fr)) = number_of_cores (self fr).
Proof.
  unfold DistributedNSGAII.run_epilogue. destruct (time_time (world fr)).
  cbn. repeat split; reflexivity.
Qed.

(** X5.  The counter is never reset: on an instance whose [run] has
    returned, a second call of [run] submits [number_of_cores] new tasks,
    consumes none of them, cancels none and replaces the result by the
    empty list. *)
Theorem second_run_returns_an_empty_population
        (fuel fuel' : nat) (self0 s : DistributedNSGAII.t World) (w0 w1 w2 : World) :
  run fuel self0 w0 = Returned (s, w1) ->
  1 <= fuel' ->
  exists s' w',
    run fuel' s w2 = Returned (s', w') /\
    get_result s' = Some [] /\
    evaluations s' = evaluations s /\
    length (submitted (client s')) = length (submitted (client s)) + number_of_cores s /\
    cancelled (client s') = cancelled (client s).
Proof.
  intros Hrun Hfuel.
  apply run_Returned in Hrun as (fr & Hw & _ & He & _ & Hmax).
  apply while_loop_Returned in Hw as (_ & Hdone & _).
  destruct (run_prologue_spec World time_time s w2)
    as (Hst & He2 & Hl & _ & Hsub & Hc).
  unfold DistributedNSGAII.run. destruct fuel' as [|fuel']; [lia|].
  cbn [DistributedNSGAII.while_loop].
  replace (evaluations (self (run_prologue s w2)) <? max_evaluations (self (run_prologue s w2)))
    with false
    by (symmetry; apply Nat.ltb_ge; rewrite He2, (ss_max _ _ Hst); lia).
  destruct (run_epilogue_spec (run_prologue s w2)) as (Hp & He3 & Hcl & _).
  destruct (run_epilogue (run_prologue s w2)) as [s' w'] eqn:E. cbn [fst] in *.
  exists s', w'. split; [reflexivity|]. unfold get_result.
  rewrite Hp, Hl, He3, He2, Hcl, Hsub, Hc. repeat split; reflexivity.
Qed.

(** *** Notifications *)

Lemma mod_10_of_double (j : nat) : ((2 * j) mod 10 =? 0) = (j mod 5 =? 0).
Proof.
  change 10 with (2 * 5). rewrite Nat.Div0.mul_mod_distr_l.
  destruct (j mod 5); reflexivity.
Qed.

Lemma for_body_Continue_notifications (future : Future) (fr fr' : Frame) :
  for_body future fr = Continue fr' ->
  notifications (self fr')
  = notifications (self fr)
    ++ (if (evaluations (self fr) + 2) mod 10 =? 0
        then map (fun ob => (ob, evaluations (self fr) + 2))
                 (observers (observable (self fr)))
        else []).
Proof.
  assert (Hend : forall fr1 fr2 : Frame,
             end_of_iteration fr1 = Continue fr2 ->
             notifications (self fr2)
             = notifications (self fr1)
               ++ (if (evaluations (self fr1) + 1) mod 10 =? 0
                   then map (fun ob => (ob, evaluations (self fr1) + 1))
                            (observers (observable (self fr1)))
                   else [])).
  { intros fr1 fr2. unfold end_of_iteration.
    cbn [evaluations set_evaluations].
    destruct ((evaluations (self fr1) + 1) mod 10 =? 0);
      intros H; inversion H; subst; clear H;
      unfold notifications, update_progress, notify_all;
      cbn [self observable set_observable set_evaluations delivered observers evaluations].
    - rewrite map_app, map_map. reflexivity.
    - now rewrite app_nil_r. }
  unfold DistributedNSGAII.for_body, submit.
  cbn [population_size evaluations set_evaluations max_evaluations problem client
       selection_operator crossover_operator mutation_operator].
  destruct (length (local_population fr) <? population_size (self fr)).
  - destruct (create_solution _ _) as [fresh w1].
    intros H. apply Hend in H. rewrite H.
    cbn [self evaluations set_client set_evaluations observable].
    replace (evaluations (self fr) + 1 + 1) with (evaluations (self fr) + 2) by lia.
    reflexivity.
  - destruct (evaluations (self fr) + 1 <? max_evaluations (self fr)).
    + destruct (selection_execute _ _ _) as [parent1 w1].
      destruct (selection_execute _ _ _) as [parent2 w2].
      destruct (crossover_execute _ _ _) as [[|offspring0 rest] w3]; [discriminate|].
      destruct (mutation_execute _ _ _) as [solution_to_evaluate w4].
      intros H. apply Hend in H. rewrite H.
      cbn [self evaluations set_client set_evaluations observable].
      replace (evaluations (self fr) + 1 + 1) with (evaluations (self fr) + 2) by lia.
      reflexivity.
    + destruct (time_time _). discriminate.
Qed.

Lemma completions_notifications (k : nat) :
  forall (a : nat) (fr0 fr : Frame),
    completions time_time k fr0 = Some fr ->
    evaluations (self fr0) = 2 * a ->
    notifications (self fr)
    = notifications (self fr0)
      ++ flat_map (fun j => if j mod 5 =? 0
                            then map (fun ob => (ob, 2 * j))
                                     (observers (observable (self fr0)))
                            else [])
                  (seq (S a) k).
Proof.
  induction k as [|k IH]; intros a fr0 fr H He.
  - inversion H; subst. cbn. now rewrite app_nil_r.
  - cbn [completions] in H.
    destruct (next_completed fr0) as [[future fr1]|] eqn:En; [|discriminate].
    destruct (for_body future fr1) as [fr2| |] eqn:Eb; try discriminate.
    apply next_completed_Some in En as (Hs & _).
    pose proof (for_body_Continue_notifications _ _ _ Eb) as Hn.
    apply for_body_Continue in Eb as (Hst & He2 & _).
    rewrite Hs in *.
    rewrite (IH (S a) fr2 fr H) by lia.
    rewrite Hn, (ss_observers _ _ Hst), He, <- app_assoc. cbn [seq flat_map].
    replace (2 * a + 2) with (2 * S a) by lia.
    rewrite mod_10_of_double. reflexivity.
Qed.

Lemma run_prologue_observable (self0 : DistributedNSGAII.t World) (w0 : World) :
  observable (self (run_prologue self0 w0)) = observable self0.
Proof.
  unfold DistributedNSGAII.run_prologue, create_initial_population.
  destruct (create_solutions _ _ _) as [initial w1].
  destruct (time_time w1) as [now w2].
  destruct (submit_all _ initial) as [futures client1]. reflexivity.
Qed.

(** X6.  On an instance whose counter is 0, the observers are notified
    after every fifth completion and at no other time: the [j]-th
    completion that is accepted notifies every registered observer once,
    in the order of registration and with [EVALUATIONS = 2 * j], when [j]
    is a multiple of 5, and nobody otherwise.  (The observable is the one
    modelled from the specification: [notify_all] delivers the event to
    every registered observer.) *)
Theorem observers_are_notified_every_fifth_completion
        (self0 : DistributedNSGAII.t World) (w0 : World) (k : nat) (fr : Frame) :
  evaluations self0 = 0 ->
  completions time_time k (run_prologue self0 w0) = Some fr ->
  notifications (self fr)
  = notifications self0
    ++ flat_map (fun j => if j mod 5 =? 0
                          then map (fun ob => (ob, 2 * j)) (observers (observable self0))
                          else [])
                (seq 1 k).
Proof.
  intros He H.
  destruct (run_prologue_spec World time_time self0 w0) as (_ & He0 & _).
  rewrite (completions_notifications k 0 _ _ H) by (rewrite He0; lia).
  unfold notifications. now rewrite run_prologue_observable.
Qed.

(** *** The filling phase *)

Lemma completions_filling (k : nat) :
  forall fr0 fr : Frame,
    completions time_time k fr0 = Some fr ->
    length (local_population fr0) + k <= population_size (self fr0) ->
    local_population fr
    = local_population fr0 ++ map (result (self fr0)) (consumed time_time k fr0).
Proof.
  induction k as [|k IH]; intros fr0 fr H Hk.
  - inversion H; subst. cbn. now rewrite app_nil_r.
  - cbn [completions] in H. cbn [consumed].
    destruct (next_completed fr0) as [[future fr1]|] eqn:En; [|discriminate].
    destruct (for_body future fr1) as [fr2| |] eqn:Eb; try discriminate.
    apply next_completed_Some in En as (Hs & _ & Hl & _).
    apply for_body_Continue in Eb as (Hst & _ & _ & _ & _ & Hcase).
    rewrite Hs, Hl in *.
    destruct Hcase as [[_ Hl2]|(Hfull & _)]; [|lia].
    rewrite (IH fr2 fr H) by (rewrite (ss_size _ _ Hst), Hl2, length_app; simpl; lia).
    rewrite Hl2, <- app_assoc. cbn [map app]. do 3 f_equal.
    unfold result. now rewrite (ss_problem _ _ Hst).
Qed.

(** X7.  While the population is filling, it is the list of the
    evaluated solutions in the order in which their evaluations completed:
    after [k <= population_size] completions it holds the results of the
    [k] futures consumed, in that order, and no ranking has been applied. *)
Theorem filling_keeps_the_order_of_completion
        (self0 : DistributedNSGAII.t World) (w0 : World) (k : nat) (fr : Frame) :
  k <= population_size self0 ->
  completions time_time k (run_prologue self0 w0) = Some fr ->
  local_population fr
  = map (fun future => evaluate (problem self0) (argument future))
        (consumed time_time k (run_prologue self0 w0)).
Proof.
  intros Hk H.
  destruct (run_prologue_spec World time_time self0 w0) as (Hst & _ & Hl & _).
  rewrite (completions_filling k _ _ H) by (rewrite Hl, (ss_size _ _ Hst); simpl; lia).
  rewrite Hl. cbn [app]. apply map_ext. intros future.
  unfold result. now rewrite (ss_problem _ _ Hst).
Qed.

(** *** How far the budget goes *)



(** *** A crossover without offspring *)

Lemma for_body_no_offspring (future : Future) (fr : Frame) :
  population_size (self fr) <= length (local_population fr) ->
  evaluations (self fr) + 1 < max_evaluations (self fr) ->
  (forall p1 p2 w,
      fst (crossover_execute (crossover_operator (self fr)) [p1; p2] w) = []) ->
  for_body future fr = Raise IndexError.
Proof.
  intros Hfull Hbudget Hcross.
  apply Nat.ltb_ge in Hfull. apply Nat.ltb_lt in Hbudget.
  unfold DistributedNSGAII.for_body, submit. cbn [population_size evaluations
    set_evaluations max_evaluations problem client selection_operator crossover_operator
    mutation_operator].
  rewrite Hfull, Hbudget.
  destruct (selection_execute _ _ _) as [parent1 w1].
  destruct (selection_execute _ _ _) as [parent2 w2].
  specialize (Hcross parent1 parent2 w2).
  destruct (crossover_execute _ _ _) as [[|offspring0 rest] w3]; [reflexivity|].
  discriminate.
Qed.

Lemma for_loop_no_offspring (d : nat) :
  forall (fuel : nat) (fr : Frame),
    d = population_size (self fr) - length (local_population fr) ->
    length (local_population fr) <= population_size (self fr) ->
    task_pool fr <> [] ->
    evaluations (self fr) + 2 * d + 1 < max_evaluations (self fr) ->
    (forall p1 p2 w,
        fst (crossover_execute (crossover_operator (self fr)) [p1; p2] w) = []) ->
    d < fuel ->
    for_loop fuel fr = ForRaised IndexError.
Proof.
  induction d as [|d IH]; intros fuel fr Hd Hlen Hpool Hbudget Hcross Hfuel;
    (destruct fuel as [|fuel]; [lia|]);
    cbn [DistributedNSGAII.for_loop];
    (destruct (next_completed fr) as [[future fr1]|] eqn:En;
     [|now apply next_completed_None in En]);
    apply next_completed_Some in En as (Hs & _ & Hl & _ & Hp);
    rewrite <- Hs, <- Hl in *.
  - rewrite for_body_no_offspring; [reflexivity|lia|lia|exact Hcross].
  - assert (Hfill : length (local_population fr1) < population_size (self fr1)) by lia.
    destruct (for_body_filling World time_time future fr1 Hfill) as (fr2 & Hb & Hl2 & Ht2).
    rewrite Hb.
    pose proof (for_body_Continue World time_time _ _ _ Hb) as (Hst & He2 & _).
    apply IH.
    + rewrite (ss_size _ _ Hst), Hl2, length_app. simpl. lia.
    + rewrite (ss_size _ _ Hst), Hl2, length_app. simpl. lia.
    + rewrite Ht2. now destruct (task_pool fr1).
    + rewrite (ss_max _ _ Hst), He2. lia.
    + rewrite (ss_crossover _ _ Hst). exact Hcross.
    + lia.
Qed.

(** X9.  A crossover that returns no offspring aborts the run: on an
    instance whose counter is 0, with at least one core and a budget above
    [2 * population_size + 1], [population_size] completions are accepted
    and the next one raises [IndexError] (from [offspring[0]]), which [run]
    lets through. *)
Theorem run_raises_IndexError_without_offspring
        (self0 : DistributedNSGAII.t World) (w0 : World) (fuel : nat) :
  evaluations self0 = 0 ->
  1 <= number_of_cores self0 ->
  2 * population_size self0 + 1 < max_evaluations self0 ->
  (forall p1 p2 w, fst (crossover_execute (crossover_operator self0) [p1; p2] w) = []) ->
  population_size self0 + 2 <= fuel ->
  run fuel self0 w0 = Raised IndexError.
Proof.
  intros He Hcores Hmax Hcross Hfuel.
  destruct (run_prologue_spec World time_time self0 w0)
    as (Hst0 & He0 & Hl0 & Hp0 & _).
  unfold DistributedNSGAII.run.
  destruct fuel as [|fuel1]; [lia|]. cbn [DistributedNSGAII.while_loop].
  replace (evaluations (self (run_prologue self0 w0))
           <? max_evaluations (self (run_prologue self0 w0))) with true
    by (symmetry; apply Nat.ltb_lt; rewrite He0, (ss_max _ _ Hst0); lia).
  rewrite (for_loop_no_offspring (population_size self0)); [reflexivity| | | | | |].
  - rewrite (ss_size _ _ Hst0), Hl0. simpl. lia.
  - rewrite Hl0. simpl. lia.
  - destruct (task_pool (run_prologue self0 w0)); [simpl in Hp0; lia|discriminate].
  - rewrite He0, (ss_max _ _ Hst0), He. lia.
  - rewrite (ss_crossover _ _ Hst0). exact Hcross.
  - lia.
Qed.

End Scheduler.

End SchedulerMore.

(** ** Jobs and experiments *)

Module LaboratoryFacts.
Import (notations) String.
Local Set Warnings "-inexact-float".
Import Laboratory Repeated.

Section Jobs.

Variable Algorithm : Type.
Variable Result : Type.
Variable algorithm_run : Algorithm -> option Algorithm.
Variable algorithm_get_result : Algorithm -> Result.
Variable Value : Type.

Local Abbreviation Memory := (Laboratory.Memory Algorithm).
Local Abbreviation Job_run := (Laboratory.Job_run algorithm_run).
Local Abbreviation run_jobs := (Laboratory.run_jobs algorithm_run).
Local Abbreviation Experiment_run := (Laboratory.Experiment_run algorithm_run).
Local Abbreviation Job_evaluate :=
  (Laboratory.Job_evaluate algorithm_get_result (Value := Value)).

Lemma store_same {A : Type} (f : nat -> A) (r : nat) (v : A) : store f r v r = v.
Proof. unfold store. now rewrite Nat.eqb_refl. Qed.

Lemma store_other {A : Type} (f : nat -> A) (r r' : nat) (v : A) :
  r' <> r -> store f r v r' = f r'.
Proof. intros H. unfold store. apply Nat.eqb_neq in H. now rewrite H. Qed.

(** What one [job.run()] changes. *)
Lemma Job_run_Returns (m m' : Memory) (self : nat) :
  Job_run m self = Returns m' ->
  exists a,
    algorithm_run (algorithm_at m (algorithm (job_at m self))) = Some a /\
    algorithm_at m' = store (algorithm_at m) (algorithm (job_at m self)) a /\
    (forall j, algorithm (job_at m' j) = algorithm (job_at m j)) /\
    executed (job_at m' self) = true /\
    (forall j, executed (job_at m j) = true -> executed (job_at m' j) = true).
Proof.
  unfold Laboratory.Job_run.
  destruct (algorithm_run _) as [a|] eqn:Ha; [|discriminate].
  intros H. injection H as <-. exists a. cbn.
  split; [reflexivity|]. split; [reflexivity|]. split; [|split].
  - intros j. unfold store. destruct (Nat.eqb j self) eqn:E; [|reflexivity].
    apply Nat.eqb_eq in E. now subst.
  - now rewrite store_same.
  - intros j Hj. unfold store. destruct (Nat.eqb j self); [reflexivity|exact Hj].
Qed.

Lemma run_jobs_Returns (jobs : list nat) :
  forall m m' : Memory,
    run_jobs m jobs = Returns m' ->
    (forall j, algorithm (job_at m' j) = algorithm (job_at m j)) /\
    (forall j, In j jobs -> executed (job_at m' j) = true) /\
    (forall j, executed (job_at m j) = true -> executed (job_at m' j) = true) /\
    (forall r,
        run_times algorithm_run
                  (count_occ Nat.eq_dec (map (fun j => algorithm (job_at m j)) jobs) r)
                  (algorithm_at m r)
        = Some (algorithm_at m' r)).
Proof.
  induction jobs as [|job rest IH]; intros m m' H.
  - cbn in H. injection H as <-. cbn. auto.
  - cbn [Laboratory.run_jobs] in H.
    destruct (Laboratory.Job_run algorithm_run m job) as [m1|] eqn:H1; [|discriminate].
    apply Job_run_Returns in H1. destruct H1 as (a & Ha & Hst & Halg & Hex & Hkeep).
    apply IH in H. destruct H as (Halg' & Hin & Hkeep' & Hcount).
    split; [|split; [|split]].
    + intros j. now rewrite Halg', Halg.
    + intros j [<-|Hj]; auto.
    + auto.
    + intros r. cbn [map count_occ].
      specialize (Hcount r).
      rewrite (map_ext (fun j => algorithm (job_at m1 j))
                       (fun j => algorithm (job_at m j))) in Hcount by exact Halg.
      rewrite Hst in Hcount.
      destruct (Nat.eq_dec (algorithm (job_at m job)) r) as [<-|Hne].
      * cbn [run_times]. rewrite Ha. now rewrite store_same in Hcount.
      * rewrite store_other in Hcount by congruence. exact Hcount.
Qed.

(** X10. When [Experiment.run] has returned, every job of the experiment can
    be evaluated: [Job.evaluate] does not raise, and returns what the metric
    computes from the result of the job's algorithm. *)
Theorem jobs_can_be_evaluated_after_the_experiment_ran
        (m m' : Memory) (self : Experiment) (job : nat) (metric : QualityIndicator Result Value) :
  Experiment_run m self = Returns m' ->
  In job (jobs self) ->
  Job_evaluate m' job metric
  = Returns (compute metric
               (algorithm_get_result (algorithm_at m' (algorithm (job_at m job))))).
Proof.
  unfold Laboratory.Experiment_run.
  destruct (m_workers self <=? 0)%Z; [discriminate|].
  intros H Hin. apply run_jobs_Returns in H. destruct H as (Halg & Hex & _ & _).
  unfold Laboratory.Job_evaluate. rewrite (Hex _ Hin), Halg. reflexivity.
Qed.

(** X11. [Experiment.run] calls [run()] on an algorithm object once for
    each job of the list that refers to it, one call after the other on the
    same object: jobs that share an algorithm do not get a run each of a
    fresh algorithm, and an algorithm that no job refers to is left as it
    was. *)
Theorem shared_algorithm_is_run_once_for_each_job
        (m m' : Memory) (self : Experiment) (r : nat) :
  Experiment_run m self = Returns m' ->
  run_times algorithm_run
            (count_occ Nat.eq_dec
                       (map (fun job => algorithm (job_at m job)) (jobs self)) r)
            (algorithm_at m r)
  = Some (algorithm_at m' r).
Proof.
  unfold Laboratory.Experiment_run.
  destruct (m_workers self <=? 0)%Z; [discriminate|].
  intros H. apply run_jobs_Returns in H. destruct H as (_ & _ & _ & Hcount).
  apply Hcount.
Qed.

Section Metrics.

Variable DataFrame : Type.
Variable empty_frame : DataFrame.
Variable one_row : String.string -> Z -> String.string -> String.string -> Value -> DataFrame.
Variable append : DataFrame -> DataFrame -> DataFrame.
Variable groupby_mean : DataFrame -> option DataFrame.

Local Abbreviation rows_of_job :=
  (Laboratory.rows_of_job algorithm_get_result one_row append).
Local Abbreviation rows_of_jobs :=
  (Laboratory.rows_of_jobs algorithm_get_result one_row append).
Local Abbreviation compute_metrics :=
  (Laboratory.compute_metrics algorithm_get_result empty_frame one_row append groupby_mean).
Local Abbreviation row_of := (Repeated.row_of algorithm_get_result one_row append).
Local Abbreviation not_run := (PlainException "Algorithm must be run first"%string).

Lemma rows_of_job_executed (m : Memory) (job : nat) (metrics : list (QualityIndicator Result Value)) :
  executed (job_at m job) = true ->
  forall df,
    rows_of_job m job metrics df
    = Returns (fold_left (row_of m) (map (pair job) metrics) df).
Proof.
  intros He. induction metrics as [|metric rest IH]; intros df; [reflexivity|].
  cbn [Laboratory.rows_of_job map fold_left]. unfold Laboratory.Job_evaluate.
  rewrite He. cbn [negb]. rewrite IH. reflexivity.
Qed.

Lemma rows_of_job_not_executed (m : Memory) (job : nat) (metrics : list (QualityIndicator Result Value)) df :
  executed (job_at m job) = false ->
  rows_of_job m job metrics df
  = match metrics with [] => Returns df | _ => Raises not_run end.
Proof.
  intros He. destruct metrics as [|metric rest]; [reflexivity|].
  cbn [Laboratory.rows_of_job]. unfold Laboratory.Job_evaluate.
  rewrite He. reflexivity.
Qed.

Lemma rows_of_jobs_executed (m : Memory) (metrics : list (QualityIndicator Result Value))
      (jobs : list nat) :
  Forall (fun job => executed (job_at m job) = true) jobs ->
  forall df,
    rows_of_jobs m jobs metrics df
    = Returns (fold_left (row_of m) (list_prod jobs metrics) df).
Proof.
  induction 1 as [|job rest He _ IH]; intros df; [reflexivity|].
  cbn [Laboratory.rows_of_jobs list_prod].
  rewrite rows_of_job_executed by exact He.
  rewrite IH, fold_left_app. reflexivity.
Qed.

Lemma rows_of_jobs_no_metric (m : Memory) (jobs : list nat) df :
  rows_of_jobs m jobs [] df = Returns df.
Proof. induction jobs as [|job rest IH]; [reflexivity|]. cbn. exact IH. Qed.

Lemma rows_of_jobs_raises (m : Memory) (metrics : list (QualityIndicator Result Value))
      (jobs : list nat) :
  forall df e,
    rows_of_jobs m jobs metrics df = Raises e ->
    e = not_run /\ metrics <> [] /\
    exists job, In job jobs /\ executed (job_at m job) = false.
Proof.
  induction jobs as [|job rest IH]; intros df e H; [discriminate|].
  cbn [Laboratory.rows_of_jobs] in H.
  destruct (executed (job_at m job)) eqn:He.
  - rewrite rows_of_job_executed in H by exact He.
    apply IH in H. destruct H as (-> & Hm & j & Hj & Hje).
    split; [reflexivity|]. split; [exact Hm|]. exists j. split; [now right|exact Hje].
  - rewrite rows_of_job_not_executed in H by exact He.
    destruct metrics as [|metric ms].
    + rewrite rows_of_jobs_no_metric in H. discriminate.
    + injection H as <-. split; [reflexivity|]. split; [discriminate|].
      exists job. split; [now left|exact He].
Qed.

(** X12. [compute_metrics] raises [Exception('Algorithm must be run
    first')] exactly when there is at least one metric and some job of the
    experiment has not been executed; no file is written then. *)
Theorem compute_metrics_raises_iff_a_job_was_not_run
        (m : Memory) (self : Experiment) (metrics : list (QualityIndicator Result Value)) :
  compute_metrics m self metrics = Raises not_run
  <-> metrics <> [] /\
      exists job, In job (jobs self) /\ executed (job_at m job) = false.
Proof.
  unfold Laboratory.compute_metrics. split.
  - destruct (Laboratory.rows_of_jobs _ _ _ _ _ _ _) as [df|e] eqn:H.
    + destruct (groupby_mean df); discriminate.
    + intros _. apply rows_of_jobs_raises in H. tauto.
  - intros (Hm & job & Hin & He).
    destruct (Laboratory.rows_of_jobs _ _ _ _ _ _ _) as [df|e] eqn:H.
    + exfalso. revert H. generalize empty_frame.
      induction (jobs self) as [|j rest IH]; [contradiction|].
      intros df0 H. cbn [Laboratory.rows_of_jobs] in H.
      destruct (executed (job_at m j)) eqn:Hj.
      * rewrite rows_of_job_executed in H by exact Hj.
        destruct Hin as [->|Hin]; [congruence|]. eapply IH; eauto.
      * rewrite rows_of_job_not_executed in H by exact Hj.
        destruct metrics; [congruence|discriminate].
    + apply rows_of_jobs_raises in H. destruct H as (-> & _). reflexivity.
Qed.

(** X13. When every job of the experiment has been executed,
    [compute_metrics] builds its frame from one row for each pair of a job
    and a metric, job by job in the order of the list and, for each job,
    metric by metric; what is returned and what is written to
    [base_dir + '/metrics_df.csv'] is the grouped mean of that frame. *)
Theorem compute_metrics_has_a_row_for_each_job_and_metric
        (m : Memory) (self : Experiment) (metrics : list (QualityIndicator Result Value)) :
  Forall (fun job => executed (job_at m job) = true) (jobs self) ->
  compute_metrics m self metrics
  = match groupby_mean (fold_left (row_of m) (list_prod (jobs self) metrics) empty_frame) with
    | Some df => Returns (df, (String.append (base_dir self) "/metrics_df.csv"%string, df))
    | None => Raises Propagated
    end.
Proof.
  intros H. unfold Laboratory.compute_metrics.
  rewrite rows_of_jobs_executed by exact H. reflexivity.
Qed.

End Metrics.

End Jobs.

Section Statistics.

Variable kstest_norm : list float -> option (float * float).
Variable wilcoxon : list float -> list float -> option (float * float).
Variable kruskal : list (list float) -> option (float * float).

Local Abbreviation normality_test := (Laboratory.normality_test kstest_norm).
Local Abbreviation compute_statistical_analysis :=
  (Laboratory.compute_statistical_analysis kstest_norm wilcoxon kruskal).

(** The Kolmogorov-Smirnov test of a data set returns, with a p-value
    that is not greater than 0.05. *)
Local Abbreviation small_pvalue :=
  (fun data => exists statistic pvalue,
       kstest_norm data = Some (statistic, pvalue) /\
       PrimFloat.ltb 0.05%float pvalue = false).

Lemma normality_test_true (data_list : list (list float)) :
  normality_test data_list = Some true <-> Forall small_pvalue data_list.
Proof.
  induction data_list as [|data rest IH]; cbn [Laboratory.normality_test].
  - split; auto.
  - destruct (kstest_norm data) as [[s p]|] eqn:Hk.
    + destruct (PrimFloat.ltb 0.05%float p) eqn:Hp.
      * split; [discriminate|]. intros H. inversion H as [|? ? (s' & p' & H1 & H2) _]; subst.
        rewrite Hk in H1. injection H1 as <- <-. congruence.
      * rewrite IH. split.
        -- intros H. constructor; [|exact H]. now exists s, p.
        -- intros H. now inversion H.
    + split; [discriminate|]. intros H. inversion H as [|? ? (s' & p' & H1 & H2) _]; subst.
      congruence.
Qed.

Lemma normality_test_break (before after : list (list float)) (data : list float)
      (statistic pvalue : float) :
  Forall small_pvalue before ->
  kstest_norm data = Some (statistic, pvalue) ->
  PrimFloat.ltb 0.05%float pvalue = true ->
  normality_test (before ++ data :: after) = Some false.
Proof.
  intros Hb Hk Hp. induction Hb as [|d ds (s & p & H1 & H2) _ IH].
  - cbn. now rewrite Hk, Hp.
  - cbn [app Laboratory.normality_test]. now rewrite H1, H2.
Qed.

Lemma as_numbers_not_placeholders (r : option (float * float)) :
  as_numbers r <> Returns (IntNumber (-1), IntNumber (-1)).
Proof. destruct r as [[s p]|]; discriminate. Qed.

(** X14. [compute_statistical_analysis] returns its placeholders
    [(-1, -1)] exactly when there are at least two data sets and the
    Kolmogorov-Smirnov test of each of them returns a p-value that is not
    greater than 0.05: for such data no comparison test is run at all. *)
Theorem analysis_returns_placeholders_iff_no_large_pvalue
        (data_list : list (list float)) :
  compute_statistical_analysis data_list = Returns (IntNumber (-1), IntNumber (-1))
  <-> 2 <= length data_list /\ Forall small_pvalue data_list.
Proof.
  unfold Laboratory.compute_statistical_analysis.
  destruct (length data_list <? 2) eqn:Hlen.
  - apply Nat.ltb_lt in Hlen. split; [discriminate|]. intros [H _]. lia.
  - apply Nat.ltb_ge in Hlen. rewrite <- normality_test_true.
    destruct (Laboratory.normality_test kstest_norm data_list) as [[|]|].
    + cbn. tauto.
    + cbn [negb]. split.
      * intros H. exfalso.
        destruct data_list as [|d0 [|d1 [|d2 rest]]];
          exact (as_numbers_not_placeholders _ H).
      * intros [_ H]. discriminate.
    + split; [discriminate|]. intros [_ H]. discriminate.
Qed.

(** X15. The first data set whose Kolmogorov-Smirnov p-value is greater
    than 0.05 ends the testing: the data sets after it are not tested, and
    the result is that of the Wilcoxon test on the two data sets when there
    are exactly two of them, that of the Kruskal-Wallis test on all of them
    otherwise; an exception of that test is propagated. *)
Theorem first_large_pvalue_selects_the_comparison_test
        (before after : list (list float)) (data : list float)
        (statistic pvalue : float) :
  2 <= length (before ++ data :: after) ->
  Forall small_pvalue before ->
  kstest_norm data = Some (statistic, pvalue) ->
  PrimFloat.ltb 0.05%float pvalue = true ->
  compute_statistical_analysis (before ++ data :: after)
  = match before ++ data :: after with
    | [data0; data1] => as_numbers (wilcoxon data0 data1)
    | all => as_numbers (kruskal all)
    end.
Proof.
  intros Hlen Hb Hk Hp. unfold Laboratory.compute_statistical_analysis.
  apply Nat.ltb_ge in Hlen. rewrite Hlen.
  rewrite (normality_test_break before after data statistic pvalue Hb Hk Hp).
  cbn [negb]. destruct (before ++ data :: after) as [|d0 [|d1 [|d2 rest]]]; reflexivity.
Qed.

End Statistics.

End LaboratoryFacts.

(** ** Creating the solutions of a problem *)

Module CoreProblemFacts.
Import CoreProblem Draws.

Lemma getitem_of_nat {A : Type} (l : list A) (i : nat) :
  getitem l (Z.of_nat i) = nth_error l i.
Proof.
  unfold getitem. replace (0 <=? Z.of_nat i)%Z with true by (symmetry; apply Z.leb_le; lia).
  now rewrite Nat2Z.id.
Qed.

Lemma range_of_nat (n : Z) :
  DTLZ1.py_range 0 n = map Z.of_nat (seq 0 (Z.to_nat n)).
Proof.
  unfold DTLZ1.py_range. rewrite Z.sub_0_r. apply map_ext. intros k. lia.
Qed.

Lemma nth_error_combine {A B : Type} (l1 : list A) (l2 : list B) :
  forall j,
    nth_error (combine l1 l2) j
    = match nth_error l1 j, nth_error l2 j with
      | Some a, Some b => Some (a, b)
      | _, _ => None
      end.
Proof.
  revert l2. induction l1 as [|a l1 IH]; intros [|b l2] [|j]; cbn; try reflexivity.
  - now destruct (nth_error l1 j).
  - apply IH.
Qed.

Lemma nth_error_firstn_Some {A : Type} (n : nat) (l : list A) :
  forall j x, nth_error (firstn n l) j = Some x -> nth_error l j = Some x.
Proof.
  revert l. induction n as [|n IH]; intros [|a l] [|j] x; cbn; try discriminate; auto.
Qed.

Section Comprehension.

Context {World : Type}.

Lemma comprehension_raises {A : Type} (element : Z -> World -> Outcome (A * World))
      (e : Exception) (i : Z) (after : list Z) :
  (forall w, element i w = Raises e) ->
  forall before w,
    Forall (fun j => forall w1, exists r, element j w1 = Returns r) before ->
    comprehension element (before ++ i :: after) w = Raises e.
Proof.
  intros Hi. induction before as [|j before IH]; intros w Hb.
  - cbn. now rewrite Hi.
  - inversion Hb as [|? ? Hj Hrest]; subst.
    cbn [app comprehension]. destruct (Hj w) as ([x w1] & ->).
    now rewrite IH.
Qed.

Lemma comprehension_Returns {A : Type} (element : Z -> World -> Outcome (A * World)) :
  forall indices w xs w',
    comprehension element indices w = Returns (xs, w') ->
    length xs = length indices /\
    Forall (fun j => exists w1 r, element j w1 = Returns r) indices.
Proof.
  induction indices as [|i rest IH]; intros w xs w' H.
  - cbn in H. injection H as <- <-. split; [reflexivity|constructor].
  - cbn [comprehension] in H.
    destruct (element i w) as [[x w1]|] eqn:Hi; [|discriminate].
    destruct (comprehension element rest w1) as [[ys w2]|] eqn:Hr; [|discriminate].
    injection H as <- <-. apply IH in Hr. destruct Hr as [Hlen Hall].
    split; [cbn; now rewrite Hlen|]. constructor; [|exact Hall].
    now exists w, (x, w1).
Qed.

End Comprehension.

Section Create.

Variable World : Type.
Variable uniform : float -> float -> World -> float * World.
Variable Attributes : Type.
Variable FloatSolution_init : Z -> Z -> Z -> list float -> list float -> Attributes.
Variable IntegerSolution_init : Z -> Z -> Z -> list Z -> list Z -> Attributes.

Local Abbreviation float_element := (CoreProblem.float_element World uniform).
Local Abbreviation integer_element := (CoreProblem.integer_element World uniform).
Local Abbreviation FloatProblem_create_solution :=
  (CoreProblem.FloatProblem_create_solution World uniform Attributes FloatSolution_init).
Local Abbreviation IntegerProblem_create_solution :=
  (CoreProblem.IntegerProblem_create_solution World uniform Attributes IntegerSolution_init).

Lemma draw_all_length (bounds : list (float * float)) :
  forall w, length (fst (draw_all uniform bounds w)) = length bounds.
Proof.
  induction bounds as [|[l u] rest IH]; intros w; [reflexivity|].
  cbn [draw_all]. destruct (uniform _ _ w) as [x w1].
  specialize (IH w1). destruct (draw_all uniform rest w1) as [xs w2].
  cbn in *. now rewrite IH.
Qed.

Lemma float_comprehension (self : Problem float) (bounds : list (float * float)) :
  forall k w,
    (forall j b, nth_error bounds j = Some b ->
                 nth_error (lower_bound self) (k + j) = Some (fst b) /\
                 nth_error (upper_bound self) (k + j) = Some (snd b)) ->
    comprehension (float_element self) (map Z.of_nat (seq k (length bounds))) w
    = Returns (draw_all uniform bounds w).
Proof.
  induction bounds as [|[l u] rest IH]; intros k w H; [reflexivity|].
  cbn [length seq map comprehension draw_all].
  unfold CoreProblem.float_element at 1. rewrite !getitem_of_nat.
  destruct (H 0 (l, u) eq_refl) as [Hl Hu]. rewrite Nat.add_0_r in Hl, Hu.
  rewrite Hl, Hu. cbn [fst snd].
  destruct (uniform _ _ w) as [x w1].
  rewrite IH.
  - now destruct (draw_all uniform rest w1).
  - intros j b Hj. replace (S k + j) with (k + S j) by lia. apply (H (S j) b Hj).
Qed.

(** X16. When both lists of bounds have at least [number_of_variables]
    entries, [FloatProblem.create_solution] returns a solution with exactly
    [number_of_variables] variables (none when that number is negative):
    the [i]-th one is drawn by [random.uniform] between the [i]-th lower and
    the [i]-th upper bound, the draws are made in the order of the indices,
    and bounds beyond [number_of_variables] are not used. *)
Theorem float_solution_draws_each_variable_between_its_bounds
        (self : Problem float) (w : World) :
  (number_of_variables self <= Z.of_nat (length (lower_bound self)))%Z ->
  (number_of_variables self <= Z.of_nat (length (upper_bound self)))%Z ->
  let bounds := firstn (Z.to_nat (number_of_variables self))
                       (combine (lower_bound self) (upper_bound self)) in
  FloatProblem_create_solution self w
  = Returns (mkFloatSolution
               (fst (draw_all uniform bounds w))
               (FloatSolution_init (number_of_variables self) (number_of_objectives self)
                                   (number_of_constraints self)
                                   (lower_bound self) (upper_bound self)),
             snd (draw_all uniform bounds w)) /\
  length (fst (draw_all uniform bounds w)) = Z.to_nat (number_of_variables self).
Proof.
  intros Hl Hu bounds.
  assert (Hlen : length bounds = Z.to_nat (number_of_variables self)).
  { unfold bounds. rewrite length_firstn, length_combine. lia. }
  split; [|now rewrite draw_all_length].
  unfold CoreProblem.FloatProblem_create_solution.
  rewrite range_of_nat, <- Hlen, float_comprehension.
  - now destruct (draw_all uniform bounds w).
  - intros j [l u] Hj. unfold bounds in Hj. apply nth_error_firstn_Some in Hj.
    rewrite nth_error_combine in Hj. cbn [Nat.add fst snd].
    destruct (nth_error (lower_bound self) j), (nth_error (upper_bound self) j);
      try discriminate.
    injection Hj as -> ->. now split.
Qed.

Lemma float_element_Returns (self : Problem float) (j : nat) :
  j < length (lower_bound self) ->
  j < length (upper_bound self) ->
  forall w, exists r, float_element self (Z.of_nat j) w = Returns r.
Proof.
  intros Hl Hu w. unfold CoreProblem.float_element. rewrite !getitem_of_nat.
  apply nth_error_Some in Hl, Hu.
  destruct (nth_error (lower_bound self) j); [|congruence].
  destruct (nth_error (upper_bound self) j); [|congruence].
  eauto.
Qed.

Lemma float_element_Raises (self : Problem float) (j : nat) :
  length (lower_bound self) <= j \/ length (upper_bound self) <= j ->
  forall w, float_element self (Z.of_nat j) w = Raises IndexError.
Proof.
  intros H w. unfold CoreProblem.float_element. rewrite !getitem_of_nat.
  destruct (nth_error (lower_bound self) j) eqn:El; [|reflexivity].
  destruct (nth_error (upper_bound self) j) eqn:Eu; [|reflexivity].
  exfalso. destruct H as [H|H]; apply nth_error_None in H; congruence.
Qed.

(** X17. When one of the lists of bounds has fewer than
    [number_of_variables] entries, [FloatProblem.create_solution] raises
    [IndexError]: no solution is returned. *)
Theorem float_solution_needs_a_bound_for_each_variable
        (self : Problem float) (w : World) :
  (Z.of_nat (length (lower_bound self)) < number_of_variables self)%Z \/
  (Z.of_nat (length (upper_bound self)) < number_of_variables self)%Z ->
  FloatProblem_create_solution self w = Raises IndexError.
Proof.
  intros H. unfold CoreProblem.FloatProblem_create_solution.
  set (bad := Nat.min (length (lower_bound self)) (length (upper_bound self))).
  assert (Hbad : bad < Z.to_nat (number_of_variables self)) by (unfold bad; lia).
  rewrite range_of_nat.
  replace (Z.to_nat (number_of_variables self))
    with (bad + S (Z.to_nat (number_of_variables self) - S bad)) by lia.
  rewrite seq_app, map_app. cbn [seq map Nat.add].
  rewrite (comprehension_raises (float_element self) IndexError); [reflexivity| |].
  - apply float_element_Raises. unfold bad. lia.
  - apply Forall_forall. intros i Hi. apply in_map_iff in Hi.
    destruct Hi as (j & <- & Hj). apply in_seq in Hj.
    apply float_element_Returns; unfold bad in *; lia.
Qed.

Lemma integer_element_Returns (self : Problem Z) (j : nat) (w : World) (r : Z * World) :
  integer_element self (Z.of_nat j) w = Returns r ->
  j < length (lower_bound self) /\ j < length (upper_bound self).
Proof.
  unfold CoreProblem.integer_element. rewrite !getitem_of_nat.
  destruct (nth_error (lower_bound self) j) eqn:El; [|discriminate].
  destruct (float_of_int _); [|discriminate].
  destruct (nth_error (upper_bound self) j) eqn:Eu; [|discriminate].
  intros _. split; apply nth_error_Some; congruence.
Qed.

(** X18. A solution returned by [IntegerProblem.create_solution] has
    exactly [number_of_variables] variables (none when that number is
    negative), and one is returned only when both lists of bounds have at
    least [number_of_variables] entries. *)
Theorem integer_solution_has_a_variable_for_each_index
        (self : Problem Z) (w w' : World) (solution : IntegerSolution Attributes) :
  IntegerProblem_create_solution self w = Returns (solution, w') ->
  length (integer_variables solution) = Z.to_nat (number_of_variables self) /\
  (number_of_variables self <= Z.of_nat (length (lower_bound self)))%Z /\
  (number_of_variables self <= Z.of_nat (length (upper_bound self)))%Z.
Proof.
  unfold CoreProblem.IntegerProblem_create_solution. rewrite range_of_nat.
  destruct (comprehension _ _ w) as [[variables w1]|] eqn:H; [|discriminate].
  intros E. injection E as <- <-. cbn [integer_variables].
  apply comprehension_Returns in H. destruct H as [Hlen Hall].
  rewrite length_map, length_seq in Hlen. split; [exact Hlen|].
  destruct (Z.to_nat (number_of_variables self)) as [|n] eqn:Hn; [lia|].
  rewrite Forall_forall in Hall.
  destruct (Hall (Z.of_nat n)) as (w1' & r & Hr).
  { apply in_map. apply in_seq. lia. }
  apply integer_element_Returns in Hr. lia.
Qed.

End Create.

End CoreProblemFacts.

(** ** Further instances in the concrete environments *)

Module MoreInstances.
Import (notations) String.
Import Core DistributedNSGAII Trace.

Lemma a_run_without_cores_spins :
  run Scenario.time_time 9 (Scenario.algorithm 4 10 0) Scenario.w0 = OutOfFuel.
Proof.
  apply (SchedulerMore.run_without_cores_never_returns
           Scenario.World Scenario.time_time (Scenario.algorithm 4 10 0) Scenario.w0 9).
  - reflexivity.
  - vm_compute. lia.
Defined.

Lemma second_run_in_the_concrete_environment :
  match run Scenario.time_time 8 (Scenario.algorithm 2 6 2) Scenario.w0 with
  | Returned (s, w1) =>
      exists s' w',
        run Scenario.time_time 1 s w1 = Returned (s', w') /\
        get_result s' = Some [] /\
        evaluations s' = evaluations s /\
        length (submitted (client s')) = length (submitted (client s)) + number_of_cores s /\
        cancelled (client s') = cancelled (client s)
  | _ => False
  end.
Proof.
  destruct (run Scenario.time_time 8 (Scenario.algorithm 2 6 2) Scenario.w0)
    as [[s w1]|e|] eqn:E.
  - apply (SchedulerMore.second_run_returns_an_empty_population
             Scenario.World Scenario.time_time 8 1 (Scenario.algorithm 2 6 2) s
             Scenario.w0 w1 w1 E).
    lia.
  - vm_compute in E. discriminate E.
  - vm_compute in E. discriminate E.
Defined.

Lemma notifications_of_twelve_completions :
  let self0 := Scenario.algorithm 10 50 4 in
  let fr := frame_after 12 (scenario_start 10 50 4) in
  notifications (self fr)
  = notifications self0
    ++ flat_map (fun j => if j mod 5 =? 0
                          then map (fun ob => (ob, 2 * j)) (observers (observable self0))
                          else [])
                (seq 1 12).
Proof.
  intros self0 fr.
  apply (SchedulerMore.observers_are_notified_every_fifth_completion
           Scenario.World Scenario.time_time self0 Scenario.w0 12 fr).
  - reflexivity.
  - vm_compute. reflexivity.
Defined.

Lemma population_after_seven_completions :
  let self0 := Scenario.algorithm 10 50 4 in
  let fr := frame_after 7 (scenario_start 10 50 4) in
  local_population fr
  = map (fun future => evaluate (problem self0) (argument future))
        (consumed Scenario.time_time 7 (run_prologue Scenario.time_time self0 Scenario.w0)).
Proof.
  intros self0 fr.
  apply (SchedulerMore.filling_keeps_the_order_of_completion
           Scenario.World Scenario.time_time self0 Scenario.w0 7 fr).
  - vm_compute. lia.
  - vm_compute. reflexivity.
Defined.


Lemma a_barren_crossover_aborts_the_run :
  run Scenario.time_time 4 (Barren.algorithm 2 7 2) Scenario.w0 = Raised IndexError.
Proof.
  apply (SchedulerMore.run_raises_IndexError_without_offspring
           Scenario.World Scenario.time_time (Barren.algorithm 2 7 2) Scenario.w0 4).
  - reflexivity.
  - vm_compute. lia.
  - vm_compute. lia.
  - intros p1 p2 w. reflexivity.
  - vm_compute. lia.
Defined.

Lemma third_job_is_evaluated_after_the_experiment :
  match Laboratory.Experiment_run Bench.algorithm_run (Bench.memory false) Bench.experiment with
  | Laboratory.Returns m' =>
      Laboratory.Job_evaluate Bench.algorithm_get_result m' 2 Bench.metric
      = Laboratory.Returns
          (Laboratory.compute Bench.metric
             (Bench.algorithm_get_result
                (Laboratory.algorithm_at m'
                   (Laboratory.algorithm (Laboratory.job_at (Bench.memory false) 2)))))
  | Laboratory.Raises _ => False
  end.
Proof.
  destruct (Laboratory.Experiment_run Bench.algorithm_run (Bench.memory false)
                                      Bench.experiment) as [m'|e] eqn:E.
  - apply (LaboratoryFacts.jobs_can_be_evaluated_after_the_experiment_ran
             nat nat Bench.algorithm_run Bench.algorithm_get_result nat
             (Bench.memory false) m' Bench.experiment 2 Bench.metric E).
    simpl. auto.
  - vm_compute in E. discriminate E.
Defined.

Lemma first_algorithm_of_the_bench_is_run_twice :
  match Laboratory.Experiment_run Bench.algorithm_run (Bench.memory false) Bench.experiment with
  | Laboratory.Returns m' =>
      Repeated.run_times
        Bench.algorithm_run
        (count_occ Nat.eq_dec
                   (map (fun job => Laboratory.algorithm
                                      (Laboratory.job_at (Bench.memory false) job))
                        (Laboratory.jobs Bench.experiment)) 0)
        (Laboratory.algorithm_at (Bench.memory false) 0)
      = Some (Laboratory.algorithm_at m' 0)
  | Laboratory.Raises _ => False
  end.
Proof.
  destruct (Laboratory.Experiment_run Bench.algorithm_run (Bench.memory false)
                                      Bench.experiment) as [m'|e] eqn:E.
  - apply (LaboratoryFacts.shared_algorithm_is_run_once_for_each_job
             nat Bench.algorithm_run (Bench.memory false) m' Bench.experiment 0 E).
  - vm_compute in E. discriminate E.
Defined.

Lemma metrics_of_the_executed_bench :
  Laboratory.compute_metrics Bench.algorithm_get_result [] Bench.one_row (@app _)
                             Bench.groupby_mean (Bench.memory true) Bench.experiment
                             [Bench.metric; Bench.metric]
  = match Bench.groupby_mean
            (fold_left (Repeated.row_of Bench.algorithm_get_result Bench.one_row (@app _)
                                        (Bench.memory true))
                       (list_prod (Laboratory.jobs Bench.experiment)
                                  [Bench.metric; Bench.metric]) []) with
    | Some df =>
        Laboratory.Returns
          (df, (String.append (Laboratory.base_dir Bench.experiment) "/metrics_df.csv"%string,
                df))
    | None => Laboratory.Raises Laboratory.Propagated
    end.
Proof.
  apply (LaboratoryFacts.compute_metrics_has_a_row_for_each_job_and_metric
           nat nat Bench.algorithm_get_result nat Bench.DataFrame [] Bench.one_row (@app _)
           Bench.groupby_mean (Bench.memory true) Bench.experiment
           [Bench.metric; Bench.metric]).
  simpl. repeat constructor.
Defined.

Lemma second_data_set_selects_the_kruskal_test :
  Laboratory.compute_statistical_analysis
    Bench.kstest_norm Bench.wilcoxon Bench.kruskal
    ([[0.03125%float]] ++ [0.5%float] :: [[1%float]])
  = match [[0.03125%float]] ++ [0.5%float] :: [[1%float]] with
    | [data0; data1] => Laboratory.as_numbers (Bench.wilcoxon data0 data1)
    | all => Laboratory.as_numbers (Bench.kruskal all)
    end.
Proof.
  apply (LaboratoryFacts.first_large_pvalue_selects_the_comparison_test
           Bench.kstest_norm Bench.wilcoxon Bench.kruskal
           [[0.03125%float]] [[1%float]] [0.5%float] 0%float 0.5%float).
  - simpl. lia.
  - constructor; [|constructor].
    exists 0%float, 0.03125%float. split; reflexivity.
  - reflexivity.
  - reflexivity.
Defined.

Lemma float_solution_of_three_variables :
  let self := Boxes.float_problem [1; 2; 3; 4]%float in
  let bounds := firstn (Z.to_nat (CoreProblem.number_of_variables self))
                       (combine (CoreProblem.lower_bound self)
                                (CoreProblem.upper_bound self)) in
  CoreProblem.FloatProblem_create_solution nat Boxes.uniform unit Boxes.FloatSolution_init
                                           self 0
  = CoreProblem.Returns
      (CoreProblem.mkFloatSolution
         (fst (Draws.draw_all Boxes.uniform bounds 0))
         (Boxes.FloatSolution_init
            (CoreProblem.number_of_variables self) (CoreProblem.number_of_objectives self)
            (CoreProblem.number_of_constraints self)
            (CoreProblem.lower_bound self) (CoreProblem.upper_bound self)),
       snd (Draws.draw_all Boxes.uniform bounds 0)) /\
  length (fst (Draws.draw_all Boxes.uniform bounds 0))
  = Z.to_nat (CoreProblem.number_of_variables self).
Proof.
  intros self.
  apply (CoreProblemFacts.float_solution_draws_each_variable_between_its_bounds
           nat Boxes.uniform unit Boxes.FloatSolution_init self 0).
  - vm_compute. discriminate.
  - vm_compute. discriminate.
Defined.

Lemma float_solution_with_two_upper_bounds :
  CoreProblem.FloatProblem_create_solution nat Boxes.uniform unit Boxes.FloatSolution_init
                                           (Boxes.float_problem [1; 2]%float) 0
  = CoreProblem.Raises CoreProblem.IndexError.
Proof.
  apply (CoreProblemFacts.float_solution_needs_a_bound_for_each_variable
           nat Boxes.uniform unit Boxes.FloatSolution_init
           (Boxes.float_problem [1; 2]%float) 0).
  right. vm_compute. reflexivity.
Defined.

Lemma integer_solution_of_three_variables :
  match CoreProblem.IntegerProblem_create_solution
          nat Boxes.uniform unit Boxes.IntegerSolution_init Boxes.integer_problem 0 with
  | CoreProblem.Returns (solution, _) =>
      length (CoreProblem.integer_variables solution)
      = Z.to_nat (CoreProblem.number_of_variables Boxes.integer_problem) /\
      (CoreProblem.number_of_variables Boxes.integer_problem
       <= Z.of_nat (length (CoreProblem.lower_bound Boxes.integer_problem)))%Z /\
      (CoreProblem.number_of_variables Boxes.integer_problem
       <= Z.of_nat (length (CoreProblem.upper_bound Boxes.integer_problem)))%Z
  | CoreProblem.Raises _ => False
  end.
Proof.
  destruct (CoreProblem.IntegerProblem_create_solution
              nat Boxes.uniform unit Boxes.IntegerSolution_init Boxes.integer_problem 0)
    as [[solution w']|e] eqn:E.
  - apply (CoreProblemFacts.integer_solution_has_a_variable_for_each_index
             nat Boxes.uniform unit Boxes.IntegerSolution_init
             Boxes.integer_problem 0 w' solution E).
  - vm_compute in E. discriminate E.
Defined.

End MoreInstances.
